(** * A shallow embedding of the command-line assistant bot (src/main.py)

    The program is a line-oriented contact manager written in Python.  It is
    embedded here as follows.

    - Python [str] values are Rocq [string]s; each [ascii] stands for the code
      point with the same number (0 to 255), and the built-ins the program
      relies on ([str.lower], [str.split], [repr], [re.match], the messages
      of the interpreter's [TypeError]s) are written out on that range.
    - The insertion-ordered [dict] of the phonebook is an association list
      kept in insertion order.
    - Methods that touch [self.phones] are computations in a small state and
      exception monad over the phonebook; a raised exception carries the
      state it leaves behind.
    - The input loop consumes a list of input lines and produces the list of
      printed lines together with the way the loop ended. *)

From Stdlib Require Import String Ascii List Bool Arith Lia.
From Stdlib Require Import DecimalString.
Import ListNotations.

Open Scope string_scope.

(** ** Python built-ins on strings *)

Module PyStr.

Definition in_range (lo hi n : nat) : bool :=
  ((lo <=? n) && (n <=? hi))%nat.

(** The backslash, the two quote characters and the line feed. *)
Definition backslash : ascii := ascii_of_nat 92.
Definition squote : ascii := ascii_of_nat 39.
Definition dquote : ascii := ascii_of_nat 34.
Definition newline : ascii := ascii_of_nat 10.

(** [str.isspace] on one character. *)
Definition isspace (c : ascii) : bool :=
  let n := nat_of_ascii c in
  in_range 9 13 n || in_range 28 32 n || (n =? 133)%nat || (n =? 160)%nat.

(** The decimal digits, which is what [\d] matches below code point 256. *)
Definition isdigit (c : ascii) : bool := in_range 48 57 (nat_of_ascii c).

(** [str.lower]. *)
Definition lower_char (c : ascii) : ascii :=
  let n := nat_of_ascii c in
  if in_range 65 90 n || (in_range 192 222 n && negb (n =? 215)%nat)
  then ascii_of_nat (n + 32)
  else c.

Fixpoint lower (s : string) : string :=
  match s with
  | EmptyString => EmptyString
  | String c s' => String (lower_char c) (lower s')
  end.

(** [str.split()] with no separator: the maximal runs of characters that
    are not white space, in order.  [cur] is the token being read. *)
Fixpoint split_from (cur : string) (s : string) : list string :=
  match s with
  | EmptyString => match cur with EmptyString => [] | _ => [cur] end
  | String c s' =>
      if isspace c
      then match cur with
           | EmptyString => split_from EmptyString s'
           | _ => cur :: split_from EmptyString s'
           end
      else split_from (cur ++ String c EmptyString) s'
  end.

Definition split (s : string) : list string := split_from EmptyString s.

(** [c in s] for a character. *)
Fixpoint has_char (c : ascii) (s : string) : bool :=
  match s with
  | EmptyString => false
  | String c' s' => Ascii.eqb c c' || has_char c s'
  end.

Definition hex_digit (n : nat) : ascii :=
  if (n <? 10)%nat then ascii_of_nat (48 + n) else ascii_of_nat (87 + n).

Definition hex2 (n : nat) : string :=
  String (hex_digit (n / 16)) (String (hex_digit (n mod 16)) EmptyString).

(** One character of [repr(s)], between quotes [quote]. *)
Definition repr_char (quote c : ascii) : string :=
  let n := nat_of_ascii c in
  if Ascii.eqb c backslash then String backslash (String backslash EmptyString)
  else if Ascii.eqb c quote then String backslash (String quote EmptyString)
  else if (n =? 9)%nat then String backslash "t"
  else if (n =? 10)%nat then String backslash "n"
  else if (n =? 13)%nat then String backslash "r"
  else if (n <? 32)%nat || in_range 127 160 n || (n =? 173)%nat
       then String backslash (String "x" (hex2 n))
  else String c EmptyString.

Fixpoint repr_body (quote : ascii) (s : string) : string :=
  match s with
  | EmptyString => EmptyString
  | String c s' => repr_char quote c ++ repr_body quote s'
  end.

(** [repr] of a string: single quotes, unless the string holds a single
    quote and no double quote. *)
Definition repr (s : string) : string :=
  let quote := if has_char squote s && negb (has_char dquote s)
               then dquote else squote in
  String quote (repr_body quote s ++ String quote EmptyString).

(** [str(n)] for a natural number. *)
Definition str_of_nat (n : nat) : string :=
  NilEmpty.string_of_uint (Nat.to_uint n).

End PyStr.

(** ** The fragment of [re] used by the program *)

Module Re.

Inductive regex : Type :=
| Lit (c : ascii)              (* an escaped literal, as in [\+] *)
| Digit                        (* [\d] *)
| Opt (r : regex)              (* [r?], greedy *)
| Rep (n : nat) (r : regex)    (* [r{n}] *)
| Cat (r1 r2 : regex)          (* [r1 r2] *)
| Alt (r1 r2 : regex).         (* [r1|r2] *)

(** [step] applied [n] times in sequence, each time to every rest the
    previous round left. *)
Fixpoint iterate (step : string -> list string) (n : nat) (s : string)
  : list string :=
  match n with
  | O => [s]
  | S k => flat_map (iterate step k) (step s)
  end.

(** All the ways [r] matches at the start of [s], as the rests of [s] each
    way leaves, in the order the backtracking matcher tries them. *)
Fixpoint matches (r : regex) (s : string) : list string :=
  match r with
  | Lit c =>
      match s with
      | String c' s' => if Ascii.eqb c c' then [s'] else []
      | EmptyString => []
      end
  | Digit =>
      match s with
      | String c' s' => if PyStr.isdigit c' then [s'] else []
      | EmptyString => []
      end
  | Opt r1 => (matches r1 s ++ [s])%list
  | Rep n r1 => iterate (matches r1) n s
  | Cat r1 r2 => flat_map (matches r2) (matches r1 s)
  | Alt r1 r2 => (matches r1 s ++ matches r2 s)%list
  end.

(** [re.match(r, s)]: the match found first, if any ([None] otherwise),
    given by the rest of [s] after it. *)
Definition re_match (r : regex) (s : string) : option string :=
  match matches r s with
  | [] => None
  | rest :: _ => Some rest
  end.

End Re.

(** ** Exceptions and the state monad *)

Inductive exn : Type :=
| TypeError (msg : string)
| KeyError (key : string)
| ValueError (msg : string)
| EOFError.

(** [str(err)]: the message, and for a [KeyError] the [repr] of the key. *)
Definition str_exn (err : exn) : string :=
  match err with
  | TypeError msg => msg
  | KeyError key => PyStr.repr key
  | ValueError msg => msg
  | EOFError => EmptyString
  end.

Inductive result (A : Type) : Type :=
| Ok (a : A)
| Raise (err : exn).

Arguments Ok {A} a.
Arguments Raise {A} err.

(** What a handler returns: [None] or a string. *)
Inductive value : Type :=
| VNone
| VStr (s : string).

(** Truthiness, as in [if result:]. *)
Definition truthy (v : value) : bool :=
  match v with
  | VNone => false
  | VStr EmptyString => false
  | VStr _ => true
  end.

(** ** Insertion-ordered dictionaries with string keys *)

Module Dict.

Definition dict (V : Type) : Type := list (string * V).

Definition keys {V} (d : dict V) : list string := map fst d.

(** [key in d] *)
Fixpoint contains {V} (key : string) (d : dict V) : bool :=
  match d with
  | [] => false
  | (k, _) :: d' => String.eqb k key || contains key d'
  end.

(** [d[key]], raising [KeyError(key)] when the key is absent. *)
Fixpoint getitem {V} (key : string) (d : dict V) : result V :=
  match d with
  | [] => Raise (KeyError key)
  | (k, v) :: d' => if String.eqb k key then Ok v else getitem key d'
  end.

(** [d[key] = v]: a present key keeps its place, a new key goes last. *)
Fixpoint setitem {V} (key : string) (v : V) (d : dict V) : dict V :=
  match d with
  | [] => [(key, v)]
  | (k, w) :: d' =>
      if String.eqb k key then (k, v) :: d' else (k, w) :: setitem key v d'
  end.

End Dict.

Section Monad.

Variable St : Type.

Definition M (A : Type) : Type := St -> result A * St.

Definition ret {A} (a : A) : M A := fun st => (Ok a, st).

Definition raise {A} (err : exn) : M A := fun st => (Raise err, st).

Definition bind {A B} (m : M A) (f : A -> M B) : M B :=
  fun st =>
    match m st with
    | (Ok a, st') => f a st'
    | (Raise err, st') => (Raise err, st')
    end.

(** A computation that does not touch the state. *)
Definition lift {A} (r : result A) : M A := fun st => (r, st).

Definition get_state : M St := fun st => (Ok st, st).

Definition put_state (st : St) : M unit := fun _ => (Ok tt, st).

End Monad.

Arguments ret {St A} a.
Arguments raise {St A} err.
Arguments bind {St A B} m f.
Arguments lift {St A} r.
Arguments get_state {St}.
Arguments put_state {St} st.

Declare Scope py_scope.
Delimit Scope py_scope with py.
Notation "x <- m ;; k" := (bind m (fun x => k))
  (at level 61, m at next level, right associativity) : py_scope.
Notation "m ;;; k" := (bind m (fun _ => k))
  (at level 61, right associativity) : py_scope.
Open Scope py_scope.

(** ** class PhoneBook *)

Module PhoneBook.

Import Re.

Record t : Type := Build { phones : Dict.dict string }.

(** [__init__] *)
Definition init : t := Build [].

(** The pattern [(\+?\d{12}|\d{10})]. *)
Definition phone_pattern : regex :=
  Alt (Cat (Opt (Lit "+")) (Rep 12 Digit)) (Rep 10 Digit).

Definition verify_phone (phone : string) : result unit :=
  match re_match phone_pattern phone with
  | None => Raise (ValueError "Invalid phone format")
  | Some _ => Ok tt
  end.

Definition duplicate_message : string :=
  "This name is already in your phonebook. If you want to change the phone number, type 'change'.".

Definition unknown_message : string :=
  "This name is not in your phonebook. If you want to add it, type 'add'.".

Definition add_contact (name phone : string) : M t unit :=
  lift (verify_phone phone) ;;;
  self <- get_state ;;
  if negb (Dict.contains name (phones self))
  then put_state (Build (Dict.setitem name phone (phones self)))
  else raise (ValueError duplicate_message).

Definition change_contact (name phone : string) : M t unit :=
  lift (verify_phone phone) ;;;
  self <- get_state ;;
  if Dict.contains name (phones self)
  then put_state (Build (Dict.setitem name phone (phones self)))
  else raise (ValueError unknown_message).

(** One round of the loop over [self.phones.items()]. *)
Definition add_line (phonebook : string) (item : string * string) : string :=
  let (name, phone) := item in
  phonebook ++ ("Name: " ++ name ++ ", phone: " ++ phone
                ++ String PyStr.newline EmptyString).

Definition show_phone (name : string) : M t string :=
  self <- get_state ;;
  if String.eqb name "all"
  then match phones self with
       | [] => ret "You do not have any contacts yet."
       | _ => ret (fold_left add_line (phones self) EmptyString)
       end
  else lift (Dict.getitem name (phones self)).

End PhoneBook.

(** ** class AssistantBot *)

Module AssistantBot.

(** The bot owns one phonebook; [self.commands] is fixed by [__init__]
    and is the constant [commands] below. *)
Definition t : Type := PhoneBook.t.

Definition init : t := PhoneBook.init.

(** The decorator: the three exception classes are turned into messages,
    anything else goes through. *)
Definition input_error {A} (func : A -> M t value) : A -> M t value :=
  fun args self =>
    match func args self with
    | (Ok result, self') => (Ok result, self')
    | (Raise (TypeError _ as err), self') =>
        (Ok (VStr ("Invalid input, some info is missing: " ++ str_exn err)),
         self')
    | (Raise (KeyError _ as err), self') =>
        (Ok (VStr ("Sorry, no such command: " ++ str_exn err)), self')
    | (Raise (ValueError _ as err), self') =>
        (Ok (VStr ("ValueError: " ++ str_exn err)), self')
    | (Raise err, self') => (Raise err, self')
    end.

(** *** Calling a function with the wrong number of positional arguments

    The text of the interpreter's [TypeError]. *)

Definition plural (n : nat) : string := if (n =? 1)%nat then "" else "s".

Fixpoint join_names (names : list string) : string :=
  match names with
  | [] => ""
  | [a] => "and " ++ PyStr.repr a
  | a :: rest => PyStr.repr a ++ ", " ++ join_names rest
  end.

Definition format_missing (names : list string) : string :=
  match names with
  | [a] => PyStr.repr a
  | [a; b] => PyStr.repr a ++ " and " ++ PyStr.repr b
  | _ => join_names names
  end.

Definition missing_error (qualname : string) (missing : list string) : exn :=
  TypeError (qualname ++ "() missing " ++ PyStr.str_of_nat (length missing)
             ++ " required positional argument" ++ plural (length missing)
             ++ ": " ++ format_missing missing).

Definition too_many_error (qualname : string) (takes given : nat) : exn :=
  TypeError (qualname ++ "() takes " ++ PyStr.str_of_nat takes
             ++ " positional argument" ++ plural takes ++ " but "
             ++ PyStr.str_of_nat given
             ++ (if (given =? 1)%nat then " was" else " were") ++ " given").

(** The error of calling [qualname], whose parameters after the [bound]
    ones are [params], with the positional arguments [args] when their
    number is not the number of [params]. *)
Definition call_error (qualname : string) (bound : nat)
    (params args : list string) : exn :=
  if (List.length args <? List.length params)%nat
  then missing_error qualname (skipn (List.length args) params)
  else too_many_error qualname (bound + List.length params)
                      (bound + List.length args).

(** *** The handlers, called as [handler( *args)] *)

Definition hello_def (args : list string) : M t value :=
  match args with
  | [] => ret (VStr "How can I help you?")
  | _ => raise (call_error "AssistantBot.hello" 0 [] args)
  end.

Definition add_def (args : list string) : M t value :=
  match args with
  | [name; phone] => PhoneBook.add_contact name phone ;;; ret VNone
  | _ => raise (call_error "AssistantBot.add" 1 ["name"; "phone"] args)
  end.

Definition change_def (args : list string) : M t value :=
  match args with
  | [name; phone] => PhoneBook.change_contact name phone ;;; ret VNone
  | _ => raise (call_error "AssistantBot.change" 1 ["name"; "phone"] args)
  end.

Definition show_def (args : list string) : M t value :=
  match args with
  | [name] => phone <- PhoneBook.show_phone name ;; ret (VStr phone)
  | _ => raise (call_error "AssistantBot.show" 1 ["name"] args)
  end.

Definition hello := input_error hello_def.
Definition add := input_error add_def.
Definition change := input_error change_def.
Definition show := input_error show_def.

Definition commands : Dict.dict (list string -> M t value) :=
  [ ("hello", hello); ("add", add); ("change", change);
    ("phone", show); ("show", show) ].

Definition handle_def (call : string * list string) : M t value :=
  let (command, args) := call in
  handler <- lift (Dict.getitem command commands) ;;
  handler args.

Definition handle (command : string) (args : list string) : M t value :=
  input_error handle_def (command, args).

End AssistantBot.

(** ** class CliApp *)

Module CliApp.

Definition parse_command (user_input : string)
  : result (string * list string) :=
  match PyStr.split user_input with
  | [] => Raise (ValueError "")
  | command :: args => Ok (command, args)
  end.

Definition stop_words : list string := ["good bye"; "close"; "exit"].

(** How the loop ends: by [break], or by an exception nothing catches
    ([EOFError] when [input()] finds no more lines). *)
Inductive ending : Type :=
| Break
| Uncaught (err : exn).

Definition print (result : value) : list string :=
  match result with
  | VNone => ["None"]
  | VStr s => [s]
  end.

(** The loop of [run] over the lines [input()] returns, with the lines it
    prints. *)
Fixpoint loop (inputs : list string) (bot : AssistantBot.t)
  : list string * ending :=
  match inputs with
  | [] => ([], Uncaught EOFError)
  | line :: inputs' =>
      match parse_command (PyStr.lower line) with
      | Raise err => ([], Uncaught err)
      | Ok (command, args) =>
          if existsb (String.eqb command) stop_words
          then (["Good bye!"], Break)
          else
            match AssistantBot.handle command args bot with
            | (Raise err, _) => ([], Uncaught err)
            | (Ok result, bot') =>
                let (printed, e) := loop inputs' bot' in
                ((if truthy result then print result else []) ++ printed,
                 e)%list
            end
      end
  end.

Definition run (inputs : list string) : list string * ending :=
  loop inputs AssistantBot.init.

End CliApp.

(** ** Definitions that follow the words of the specification *)

Module Spec.

(** Every character of [d] is a decimal digit. *)
Fixpoint all_digits (d : string) : bool :=
  match d with
  | EmptyString => true
  | String c d' => PyStr.isdigit c && all_digits d'
  end.

(** [s] begins with [pre]. *)
Definition begins_with (pre s : string) : Prop :=
  exists rest, s = pre ++ rest.

(** The phone begins with an optional [+] followed by 12 digits, or it
    begins with 10 digits; whatever follows is allowed. *)
Definition phone_ok (phone : string) : Prop :=
  exists d, all_digits d = true /\
    ((String.length d = 12 /\
      (begins_with d phone \/ begins_with ("+" ++ d) phone))
     \/ (String.length d = 10 /\ begins_with d phone)).

(** The number of arguments each recognised command takes. *)
Definition arity (command : string) : option nat :=
  if String.eqb command "hello" then Some 0
  else if String.eqb command "add" then Some 2
  else if String.eqb command "change" then Some 2
  else if String.eqb command "phone" then Some 1
  else if String.eqb command "show" then Some 1
  else None.

(** One line of the listing: [Name: {name}, phone: {phone}]. *)
Definition line (item : string * string) : string :=
  "Name: " ++ fst item ++ ", phone: " ++ snd item
  ++ String PyStr.newline EmptyString.

Fixpoint listing (items : list (string * string)) : string :=
  match items with
  | [] => EmptyString
  | item :: items' => line item ++ listing items'
  end.

End Spec.

(** The stores the program can build: from the empty phonebook, by calls of
    [add_contact] and [change_contact], whether they succeed or raise. *)
Inductive reachable : PhoneBook.t -> Prop :=
| reachable_init : reachable PhoneBook.init
| reachable_add (name phone : string) (self : PhoneBook.t) :
    reachable self -> reachable (snd (PhoneBook.add_contact name phone self))
| reachable_change (name phone : string) (self : PhoneBook.t) :
    reachable self ->
    reachable (snd (PhoneBook.change_contact name phone self)).

(** ** Auxiliary definitions *)

(** Reading [n] digits off the front of [s]. *)
Fixpoint skip_digits (n : nat) (s : string) : option string :=
  match n with
  | O => Some s
  | S k =>
      match s with
      | String c s' => if PyStr.isdigit c then skip_digits k s' else None
      | EmptyString => None
      end
  end.

Definition option_list {A} (o : option A) : list A :=
  match o with
  | Some a => [a]
  | None => []
  end.

(** The invariant of the store: every phone is valid, no name occurs
    twice. *)
Definition store_ok (self : PhoneBook.t) : Prop :=
  (forall name phone,
     In (name, phone) (PhoneBook.phones self) ->
     PhoneBook.verify_phone phone = Ok tt) /\
  NoDup (Dict.keys (PhoneBook.phones self)).

(** Two sample stores. *)
Definition alice_book : PhoneBook.t :=
  PhoneBook.Build [("alice", "1234567890")].

Definition alice_bob_book : PhoneBook.t :=
  PhoneBook.Build [("alice", "1234567890"); ("bob", "+123456789012")].

(** A handler body that runs [m] and then returns cannot raise what [m]
    does not raise. *)
Ltac after_call H :=
  unfold bind;
  match goal with
  | |- context [let (_, _) := ?m in _] => destruct m as [[?|?] ?]
  end;
  cbn in *; [discriminate | intros [= ->]; now apply H].

(** Strings made of white space only, strings free of white space, and
    the shape of a token of [str.split]. *)
Fixpoint all_space (s : string) : bool :=
  match s with
  | EmptyString => true
  | String c s' => PyStr.isspace c && all_space s'
  end.

Fixpoint no_space (s : string) : bool :=
  match s with
  | EmptyString => true
  | String c s' => negb (PyStr.isspace c) && no_space s'
  end.

Definition token (s : string) : Prop := s <> "" /\ no_space s = true.

(** [" ".join(tokens)] *)
Fixpoint join_spaces (tokens : list string) : string :=
  match tokens with
  | [] => ""
  | [t] => t
  | t :: tokens' => t ++ " " ++ join_spaces tokens'
  end.

(** What a call of the dispatcher can come to on the bot [self]: a message
    that is not empty and an untouched store, the result of a look-up and
    an untouched store, or [None] and the store with one phone set. *)
Definition handler_outcome (command : string) (args : list string)
    (self : AssistantBot.t) (out : result value * AssistantBot.t) : Prop :=
  (exists text, text <> "" /\ out = (Ok (VStr text), self)) \/
  (exists name phone,
     (command = "show" \/ command = "phone") /\ args = [name] /\
     PhoneBook.show_phone name self = (Ok phone, self) /\
     out = (Ok (VStr phone), self)) \/
  (exists name phone,
     (command = "add" \/ command = "change") /\ args = [name; phone] /\
     PhoneBook.verify_phone phone = Ok tt /\
     Dict.contains name (PhoneBook.phones self)
     = (if String.eqb command "add" then false else true) /\
     out = (Ok VNone,
            PhoneBook.Build
              (Dict.setitem name phone (PhoneBook.phones self)))).

(** * Properties *)

(** ** Strings *)

Lemma append_nil_r (s : string) : s ++ "" = s.
Proof. induction s as [|c s IH]; simpl; [reflexivity | now rewrite IH]. Qed.

Lemma append_assoc (s1 s2 s3 : string) : (s1 ++ s2) ++ s3 = s1 ++ (s2 ++ s3).
Proof. induction s1 as [|c s1 IH]; simpl; [reflexivity | now rewrite IH]. Qed.

Lemma length_append (s1 s2 : string) :
  String.length (s1 ++ s2) = String.length s1 + String.length s2.
Proof. induction s1 as [|c s1 IH]; simpl; [reflexivity | now rewrite IH]. Qed.

(** ** The phone pattern *)

Lemma iterate_digit (n : nat) (s : string) :
  Re.iterate (Re.matches Re.Digit) n s = option_list (skip_digits n s).
Proof.
  revert s; induction n as [|n IH]; intros s; [reflexivity|].
  destruct s as [|c s]; [reflexivity|].
  cbn [Re.iterate Re.matches skip_digits].
  destruct (PyStr.isdigit c); [|reflexivity].
  cbn [flat_map]. now rewrite IH, app_nil_r.
Qed.

Lemma skip_digits_some (n : nat) (s rest : string) :
  skip_digits n s = Some rest <->
  exists d, Spec.all_digits d = true /\ String.length d = n /\ s = d ++ rest.
Proof.
  revert s; induction n as [|n IH]; intros s; cbn [skip_digits].
  - split.
    + intros [= ->]. now exists "".
    + intros (d & _ & Hlen & ->). destruct d; [reflexivity | discriminate].
  - split.
    + destruct s as [|c s]; [discriminate|].
      destruct (PyStr.isdigit c) eqn:Hc; [|discriminate].
      intros H. apply IH in H as (d & Hd & Hlen & ->).
      exists (String c d). cbn. rewrite Hc, Hd, Hlen. now repeat split.
    + intros (d & Hd & Hlen & ->).
      destruct d as [|c d]; [discriminate|].
      cbn in Hd, Hlen |- *. apply andb_true_iff in Hd as [-> Hd].
      apply IH. exists d. repeat split; [assumption | lia].
Qed.

Lemma skip_digits_begins (n : nat) (s : string) :
  (exists rest, skip_digits n s = Some rest) <->
  exists d, Spec.all_digits d = true /\ String.length d = n
            /\ Spec.begins_with d s.
Proof.
  split.
  - intros (rest & H). apply skip_digits_some in H as (d & Hd & Hlen & ->).
    exists d. repeat split; try assumption. now exists rest.
  - intros (d & Hd & Hlen & rest & ->). exists rest.
    apply skip_digits_some. now exists d.
Qed.

(** The rests the pattern leaves: after [+] and 12 digits, after 12 digits,
    after 10 digits, in the order the matcher finds them. *)
Lemma matches_phone_pattern (phone : string) :
  Re.matches PhoneBook.phone_pattern phone =
  (match phone with
   | String c s' =>
       if Ascii.eqb "+" c then option_list (skip_digits 12 s') else []
   | EmptyString => []
   end
   ++ option_list (skip_digits 12 phone)
   ++ option_list (skip_digits 10 phone))%list.
Proof.
  unfold PhoneBook.phone_pattern.
  cbn [Re.matches]. rewrite flat_map_app. cbn [flat_map].
  rewrite !iterate_digit, app_nil_r, <- app_assoc.
  f_equal.
  destruct phone as [|c s']; [reflexivity|].
  destruct (Ascii.eqb "+" c); cbn [flat_map]; [|reflexivity].
  now rewrite iterate_digit, app_nil_r.
Qed.

Lemma verify_phone_cases (phone : string) :
  PhoneBook.verify_phone phone = Ok tt \/
  PhoneBook.verify_phone phone = Raise (ValueError "Invalid phone format").
Proof.
  unfold PhoneBook.verify_phone.
  destruct (Re.re_match _ _); [now left | now right].
Qed.

Lemma verify_phone_ok_matches (phone : string) :
  PhoneBook.verify_phone phone = Ok tt <->
  Re.matches PhoneBook.phone_pattern phone <> [].
Proof.
  unfold PhoneBook.verify_phone, Re.re_match.
  destruct (Re.matches _ _); split; congruence.
Qed.

Lemma verify_phone_ok_iff (phone : string) :
  PhoneBook.verify_phone phone = Ok tt <-> Spec.phone_ok phone.
Proof.
  rewrite verify_phone_ok_matches, matches_phone_pattern.
  split.
  - intros H.
    destruct (skip_digits 12 phone) as [r12|] eqn:H12.
    { apply skip_digits_some in H12 as (d & Hd & Hlen & ->).
      exists d. split; [assumption|]. left. split; [assumption|].
      left. now exists r12. }
    destruct (skip_digits 10 phone) as [r10|] eqn:H10.
    { apply skip_digits_some in H10 as (d & Hd & Hlen & ->).
      exists d. split; [assumption|]. right. split; [assumption|].
      now exists r10. }
    destruct phone as [|c s']; [now contradiction H|].
    destruct (Ascii.eqb_spec "+" c) as [<-|]; [|now contradiction H].
    destruct (skip_digits 12 s') as [r|] eqn:Hplus; [|now contradiction H].
    apply skip_digits_some in Hplus as (d & Hd & Hlen & ->).
    exists d. split; [assumption|]. left. split; [assumption|].
    right. now exists r.
  - intros (d & Hd & Hshape) Hnil.
    apply app_eq_nil in Hnil as [Hplus Hnil].
    apply app_eq_nil in Hnil as [H12 H10].
    destruct Hshape as [[Hlen [[rest ->]|[rest ->]]]|[Hlen [rest ->]]].
    + assert (H : skip_digits 12 (d ++ rest) = Some rest)
        by (apply skip_digits_some; now exists d).
      now rewrite H in H12.
    + assert (H : skip_digits 12 (d ++ rest) = Some rest)
        by (apply skip_digits_some; now exists d).
      cbn [append] in Hplus. now rewrite Ascii.eqb_refl, H in Hplus.
    + assert (H : skip_digits 10 (d ++ rest) = Some rest)
        by (apply skip_digits_some; now exists d).
      now rewrite H in H10.
Qed.

(** C3: [verify_phone] returns normally exactly when the phone begins with an
    optional plus sign followed by 12 digits or begins with 10 digits, with
    anything allowed after that prefix; on every other string it raises the
    invalid-phone-format error, [ValueError("Invalid phone format")]. *)
Theorem verify_phone_prefix_match (phone : string) :
  (PhoneBook.verify_phone phone = Ok tt /\ Spec.phone_ok phone) \/
  (PhoneBook.verify_phone phone = Raise (ValueError "Invalid phone format")
   /\ ~ Spec.phone_ok phone).
Proof.
  destruct (verify_phone_cases phone) as [H|H].
  - left. split; [assumption | now apply verify_phone_ok_iff].
  - right. split; [assumption|].
    intros Hok. apply verify_phone_ok_iff in Hok. congruence.
Qed.

(** ** Dictionaries *)

Section DictFacts.

Context {V : Type}.
Implicit Types (d : Dict.dict V) (key : string) (v : V).

Lemma contains_iff_keys key d :
  Dict.contains key d = true <-> In key (Dict.keys d).
Proof.
  induction d as [|[k w] d IH]; cbn; [easy|].
  rewrite orb_true_iff, String.eqb_eq, IH. reflexivity.
Qed.

Lemma getitem_absent key d :
  Dict.contains key d = false -> Dict.getitem key d = Raise (KeyError key).
Proof.
  induction d as [|[k w] d IH]; cbn; [reflexivity|].
  intros H. apply orb_false_iff in H as [-> H]. now apply IH.
Qed.

Lemma getitem_present key d :
  Dict.contains key d = true -> exists v, Dict.getitem key d = Ok v.
Proof.
  induction d as [|[k w] d IH]; cbn; [discriminate|].
  destruct (String.eqb k key); cbn; [now exists w | exact IH].
Qed.

Lemma getitem_ok_in key v d :
  Dict.getitem key d = Ok v -> In (key, v) d.
Proof.
  induction d as [|[k w] d IH]; cbn; [discriminate|].
  destruct (String.eqb_spec k key) as [->|].
  - intros [= ->]. now left.
  - intros H. right. now apply IH.
Qed.

Lemma setitem_absent key v d :
  Dict.contains key d = false ->
  Dict.setitem key v d = (d ++ [(key, v)])%list.
Proof.
  induction d as [|[k w] d IH]; cbn; [reflexivity|].
  intros H. apply orb_false_iff in H as [-> H]. now rewrite IH.
Qed.

Lemma setitem_present_keys key v d :
  Dict.contains key d = true ->
  Dict.keys (Dict.setitem key v d) = Dict.keys d.
Proof.
  induction d as [|[k w] d IH]; cbn; [discriminate|].
  destruct (String.eqb k key); cbn; [reflexivity|].
  intros H. f_equal. now apply IH.
Qed.

Lemma getitem_setitem_same key v d :
  Dict.getitem key (Dict.setitem key v d) = Ok v.
Proof.
  induction d as [|[k w] d IH]; cbn.
  - now rewrite String.eqb_refl.
  - destruct (String.eqb k key) eqn:E; cbn; now rewrite E.
Qed.

Lemma getitem_setitem_other key other v d :
  other <> key ->
  Dict.getitem other (Dict.setitem key v d) = Dict.getitem other d.
Proof.
  intros Hne. induction d as [|[k w] d IH]; cbn.
  - destruct (String.eqb_spec key other); [congruence | reflexivity].
  - destruct (String.eqb_spec k key) as [->|]; cbn.
    + destruct (String.eqb_spec key other); [congruence | reflexivity].
    + now rewrite IH.
Qed.

Lemma in_setitem key v d (item : string * V) :
  In item (Dict.setitem key v d) -> item = (key, v) \/ In item d.
Proof.
  induction d as [|[k w] d IH]; cbn.
  - intros [<-|[]]. now left.
  - destruct (String.eqb_spec k key) as [->|]; cbn.
    + intros [<-|H]; [now left | now right; right].
    + intros [<-|H]; [now right; left|].
      destruct (IH H); [now left | now right; right].
Qed.

End DictFacts.

(** ** The contact store *)

Lemma add_contact_unfold (name phone : string) (self : PhoneBook.t) :
  PhoneBook.add_contact name phone self =
  match PhoneBook.verify_phone phone with
  | Raise err => (Raise err, self)
  | Ok _ =>
      if Dict.contains name (PhoneBook.phones self)
      then (Raise (ValueError PhoneBook.duplicate_message), self)
      else (Ok tt,
            PhoneBook.Build
              (Dict.setitem name phone (PhoneBook.phones self)))
  end.
Proof.
  unfold PhoneBook.add_contact, bind, lift, get_state, put_state, raise.
  destruct (PhoneBook.verify_phone phone); [|reflexivity].
  now destruct (Dict.contains name (PhoneBook.phones self)).
Qed.

Lemma change_contact_unfold (name phone : string) (self : PhoneBook.t) :
  PhoneBook.change_contact name phone self =
  match PhoneBook.verify_phone phone with
  | Raise err => (Raise err, self)
  | Ok _ =>
      if Dict.contains name (PhoneBook.phones self)
      then (Ok tt,
            PhoneBook.Build
              (Dict.setitem name phone (PhoneBook.phones self)))
      else (Raise (ValueError PhoneBook.unknown_message), self)
  end.
Proof.
  unfold PhoneBook.change_contact, bind, lift, get_state, put_state, raise.
  destruct (PhoneBook.verify_phone phone); [|reflexivity].
  now destruct (Dict.contains name (PhoneBook.phones self)).
Qed.

Lemma verify_phone_not_ok (phone : string) :
  PhoneBook.verify_phone phone <> Ok tt ->
  PhoneBook.verify_phone phone = Raise (ValueError "Invalid phone format").
Proof. destruct (verify_phone_cases phone); congruence. Qed.

(** C4: [add_contact] validates the phone first (an invalid phone raises the
    format error whether or not the name is present), then raises the
    duplicate-name error when the name is already a key, and otherwise
    inserts the pair after the contacts already there; whenever it raises,
    the store is exactly what it was. *)
Theorem add_contact_validates_then_inserts
    (name phone : string) (self : PhoneBook.t) :
  (PhoneBook.verify_phone phone <> Ok tt ->
   PhoneBook.add_contact name phone self
   = (Raise (ValueError "Invalid phone format"), self)) /\
  (PhoneBook.verify_phone phone = Ok tt ->
   Dict.contains name (PhoneBook.phones self) = true ->
   PhoneBook.add_contact name phone self
   = (Raise (ValueError PhoneBook.duplicate_message), self)) /\
  (PhoneBook.verify_phone phone = Ok tt ->
   Dict.contains name (PhoneBook.phones self) = false ->
   PhoneBook.add_contact name phone self
   = (Ok tt, PhoneBook.Build (PhoneBook.phones self ++ [(name, phone)])%list)) /\
  (forall err,
   fst (PhoneBook.add_contact name phone self) = Raise err ->
   snd (PhoneBook.add_contact name phone self) = self).
Proof.
  rewrite add_contact_unfold.
  repeat split.
  - intros H. now rewrite (verify_phone_not_ok _ H).
  - intros -> ->. reflexivity.
  - intros -> Habs. rewrite Habs. now rewrite setitem_absent.
  - intros err.
    destruct (PhoneBook.verify_phone phone); [|reflexivity].
    now destruct (Dict.contains name (PhoneBook.phones self)).
Qed.

(** C5: [change_contact] validates the phone first, then raises the
    unknown-name error when the name is not a key, and otherwise overwrites
    the phone stored under the name: the name now maps to the new phone, the
    names keep their order and every other name keeps its phone; whenever it
    raises, the store is exactly what it was. *)
Theorem change_contact_validates_then_overwrites
    (name phone : string) (self : PhoneBook.t) :
  (PhoneBook.verify_phone phone <> Ok tt ->
   PhoneBook.change_contact name phone self
   = (Raise (ValueError "Invalid phone format"), self)) /\
  (PhoneBook.verify_phone phone = Ok tt ->
   Dict.contains name (PhoneBook.phones self) = false ->
   PhoneBook.change_contact name phone self
   = (Raise (ValueError PhoneBook.unknown_message), self)) /\
  (PhoneBook.verify_phone phone = Ok tt ->
   Dict.contains name (PhoneBook.phones self) = true ->
   exists self',
     PhoneBook.change_contact name phone self = (Ok tt, self') /\
     Dict.getitem name (PhoneBook.phones self') = Ok phone /\
     Dict.keys (PhoneBook.phones self') = Dict.keys (PhoneBook.phones self) /\
     forall other, other <> name ->
       Dict.getitem other (PhoneBook.phones self')
       = Dict.getitem other (PhoneBook.phones self)) /\
  (forall err,
   fst (PhoneBook.change_contact name phone self) = Raise err ->
   snd (PhoneBook.change_contact name phone self) = self).
Proof.
  rewrite change_contact_unfold.
  repeat split.
  - intros H. now rewrite (verify_phone_not_ok _ H).
  - intros -> ->. reflexivity.
  - intros -> Hin. rewrite Hin.
    eexists. split; [reflexivity|]. cbn. repeat split.
    + apply getitem_setitem_same.
    + now apply setitem_present_keys.
    + intros other Hne. now apply getitem_setitem_other.
  - intros err.
    destruct (PhoneBook.verify_phone phone); [|reflexivity].
    now destruct (Dict.contains name (PhoneBook.phones self)).
Qed.

(** ** Looking up and listing *)

Lemma add_line_line (phonebook : string) (item : string * string) :
  PhoneBook.add_line phonebook item = phonebook ++ Spec.line item.
Proof. now destruct item. Qed.

Lemma fold_add_line (items : list (string * string)) (acc : string) :
  fold_left PhoneBook.add_line items acc = acc ++ Spec.listing items.
Proof.
  revert acc; induction items as [|item items IH]; intros acc; cbn [fold_left].
  - cbn. now rewrite append_nil_r.
  - rewrite IH, add_line_line. cbn [Spec.listing]. now rewrite append_assoc.
Qed.

Lemma listing_app (items1 items2 : list (string * string)) :
  Spec.listing (items1 ++ items2)
  = Spec.listing items1 ++ Spec.listing items2.
Proof.
  induction items1 as [|item items1 IH]; cbn [Spec.listing app];
    [reflexivity|].
  now rewrite IH, append_assoc.
Qed.

Lemma show_phone_all (self : PhoneBook.t) :
  PhoneBook.show_phone "all" self =
  (Ok match PhoneBook.phones self with
      | [] => "You do not have any contacts yet."
      | _ => Spec.listing (PhoneBook.phones self)
      end, self).
Proof.
  unfold PhoneBook.show_phone, bind, get_state. cbn [String.eqb Ascii.eqb].
  cbn. destruct (PhoneBook.phones self) as [|item items]; [reflexivity|].
  unfold ret. now rewrite fold_add_line.
Qed.

Lemma show_phone_name (name : string) (self : PhoneBook.t) :
  name <> "all" ->
  PhoneBook.show_phone name self
  = (Dict.getitem name (PhoneBook.phones self), self).
Proof.
  intros Hne. unfold PhoneBook.show_phone, bind, get_state, lift.
  now destruct (String.eqb_spec name "all").
Qed.

(** C7: on an empty store [show_phone("all")] returns the no-contacts
    message; on a non-empty store it returns one line
    [Name: {name}, phone: {phone}] per contact, in the order of the store,
    which is the order of insertion: a successful [add_contact] puts its
    line after all the lines there were, and a successful [change_contact]
    leaves the order of the names as it was. *)
Theorem show_phone_all_lists_in_insertion_order
    (name phone : string) (self self' : PhoneBook.t) :
  (PhoneBook.phones self = [] ->
   PhoneBook.show_phone "all" self
   = (Ok "You do not have any contacts yet.", self)) /\
  (PhoneBook.phones self <> [] ->
   PhoneBook.show_phone "all" self
   = (Ok (Spec.listing (PhoneBook.phones self)), self)) /\
  (PhoneBook.add_contact name phone self = (Ok tt, self') ->
   PhoneBook.show_phone "all" self'
   = (Ok (Spec.listing (PhoneBook.phones self) ++ Spec.line (name, phone)),
      self')) /\
  (PhoneBook.change_contact name phone self = (Ok tt, self') ->
   Dict.keys (PhoneBook.phones self') = Dict.keys (PhoneBook.phones self)).
Proof.
  repeat split.
  - intros H. now rewrite show_phone_all, H.
  - intros H. rewrite show_phone_all.
    now destruct (PhoneBook.phones self).
  - rewrite add_contact_unfold.
    destruct (PhoneBook.verify_phone phone); [|discriminate].
    destruct (Dict.contains name (PhoneBook.phones self)) eqn:Habs;
      [discriminate|].
    intros [= <-]. rewrite show_phone_all. cbn [PhoneBook.phones].
    rewrite (setitem_absent _ _ _ Habs), listing_app.
    cbn [Spec.listing]. rewrite append_nil_r.
    now destruct (PhoneBook.phones self).
  - rewrite change_contact_unfold.
    destruct (PhoneBook.verify_phone phone); [|discriminate].
    destruct (Dict.contains name (PhoneBook.phones self)) eqn:Hin;
      [|discriminate].
    intros [= <-]. now apply setitem_present_keys.
Qed.

(** C8: for a name other than [all], when [add_contact(name, phone)]
    succeeds (so the phone passed [verify_phone]), [show_phone(name)] on the
    store it leaves returns exactly that phone. *)
Theorem add_then_show_returns_phone
    (name phone : string) (self self' : PhoneBook.t) :
  name <> "all" ->
  PhoneBook.add_contact name phone self = (Ok tt, self') ->
  PhoneBook.verify_phone phone = Ok tt /\
  PhoneBook.show_phone name self' = (Ok phone, self').
Proof.
  intros Hne. rewrite add_contact_unfold.
  destruct (PhoneBook.verify_phone phone) as [[]|]; [|discriminate].
  destruct (Dict.contains name (PhoneBook.phones self)); [discriminate|].
  intros [= <-]. split; [reflexivity|].
  rewrite (show_phone_name _ _ Hne). cbn [PhoneBook.phones].
  now rewrite getitem_setitem_same.
Qed.

(** ** The invariant of the store *)

Lemma setitem_keeps_verified (name phone : string) (d : Dict.dict string) :
  PhoneBook.verify_phone phone = Ok tt ->
  (forall n p, In (n, p) d -> PhoneBook.verify_phone p = Ok tt) ->
  forall n p, In (n, p) (Dict.setitem name phone d) ->
              PhoneBook.verify_phone p = Ok tt.
Proof.
  intros Hv Hd n p Hin.
  destruct (in_setitem _ _ _ _ Hin) as [[= -> ->]|H]; [assumption|].
  now apply (Hd n p).
Qed.

Lemma setitem_keeps_nodup (name phone : string) (d : Dict.dict string) :
  NoDup (Dict.keys d) -> NoDup (Dict.keys (Dict.setitem name phone d)).
Proof.
  intros Hnd. destruct (Dict.contains name d) eqn:Hc.
  - now rewrite setitem_present_keys.
  - rewrite setitem_absent by assumption.
    unfold Dict.keys. rewrite map_app. cbn.
    apply NoDup_app; [assumption | repeat constructor; easy |].
    intros k Hk [<-|[]].
    apply contains_iff_keys in Hk. congruence.
Qed.

Lemma reachable_store_ok (self : PhoneBook.t) :
  reachable self -> store_ok self.
Proof.
  induction 1 as [|name phone self _ [IHv IHn]|name phone self _ [IHv IHn]].
  - split; [intros ? ? [] | constructor].
  - rewrite add_contact_unfold.
    destruct (PhoneBook.verify_phone phone) as [[]|] eqn:Hv; [|now split].
    destruct (Dict.contains name (PhoneBook.phones self)); [now split|].
    split; cbn.
    + now apply setitem_keeps_verified.
    + now apply setitem_keeps_nodup.
  - rewrite change_contact_unfold.
    destruct (PhoneBook.verify_phone phone) as [[]|] eqn:Hv; [|now split].
    destruct (Dict.contains name (PhoneBook.phones self)); [|now split].
    split; cbn.
    + now apply setitem_keeps_verified.
    + now apply setitem_keeps_nodup.
Qed.

(** C9: in every store reachable from the empty one by calls of
    [add_contact] and [change_contact], every stored phone passes
    [verify_phone] and no name is stored twice; and on such a store an
    [add_contact] of a name already present never succeeds: it raises and
    leaves the store as it was. *)
Theorem reachable_store_invariant (self : PhoneBook.t) :
  reachable self ->
  (forall name phone,
     In (name, phone) (PhoneBook.phones self) ->
     PhoneBook.verify_phone phone = Ok tt) /\
  NoDup (Dict.keys (PhoneBook.phones self)) /\
  (forall name phone,
     Dict.contains name (PhoneBook.phones self) = true ->
     exists err,
       PhoneBook.add_contact name phone self = (Raise err, self)).
Proof.
  intros Hr. destruct (reachable_store_ok self Hr) as [Hv Hn].
  repeat split; try assumption.
  intros name phone Hin. rewrite add_contact_unfold, Hin.
  destruct (PhoneBook.verify_phone phone); eauto.
Qed.

Lemma line_longer_than_phone (name phone : string) :
  String.length phone < String.length (Spec.line (name, phone)).
Proof.
  unfold Spec.line. cbn [fst snd].
  rewrite !length_append. cbn [String.length]. lia.
Qed.

Lemma listing_covers_line (item : string * string)
    (items : list (string * string)) :
  In item items ->
  String.length (Spec.line item) <= String.length (Spec.listing items).
Proof.
  induction items as [|item' items IH]; [intros []|].
  cbn [Spec.listing]. rewrite length_append.
  intros [->|H]; [lia | specialize (IH H); lia].
Qed.

(** C10: the name [all] is added to the store like any other name, but
    [show_phone("all")] always returns the listing of the whole store (or
    the no-contacts message when the store is empty) and never the phone
    stored under the key [all]. *)
Theorem all_is_stored_but_never_looked_up
    (phone : string) (self : PhoneBook.t) :
  (PhoneBook.verify_phone phone = Ok tt ->
   Dict.contains "all" (PhoneBook.phones self) = false ->
   PhoneBook.add_contact "all" phone self
   = (Ok tt,
      PhoneBook.Build (PhoneBook.phones self ++ [("all", phone)])%list)) /\
  (exists text,
     PhoneBook.show_phone "all" self = (Ok text, self) /\
     ((PhoneBook.phones self = [] /\
       text = "You do not have any contacts yet.") \/
      (PhoneBook.phones self <> [] /\
       text = Spec.listing (PhoneBook.phones self)))) /\
  (forall stored,
     Dict.getitem "all" (PhoneBook.phones self) = Ok stored ->
     fst (PhoneBook.show_phone "all" self) <> Ok stored).
Proof.
  repeat split.
  - intros Hv Habs. rewrite add_contact_unfold, Hv, Habs.
    now rewrite setitem_absent.
  - rewrite show_phone_all. eexists. split; [reflexivity|].
    destruct (PhoneBook.phones self); [now left | now right].
  - intros stored Hget. rewrite show_phone_all. cbn [fst].
    apply getitem_ok_in in Hget.
    pose proof (listing_covers_line _ _ Hget) as Hlen.
    pose proof (line_longer_than_phone "all" stored) as Hlt.
    destruct (PhoneBook.phones self) as [|item items]; [destruct Hget|].
    intros Heq.
    assert (Heq' : Spec.listing (item :: items) = stored) by congruence.
    rewrite Heq' in Hlen. lia.
Qed.

(** ** The dispatcher *)

Lemma input_error_ok {A} (func : A -> M AssistantBot.t value)
    (args : A) (self : AssistantBot.t) :
  fst (func args self) <> Raise EOFError ->
  exists result, fst (AssistantBot.input_error func args self) = Ok result.
Proof.
  unfold AssistantBot.input_error.
  destruct (func args self) as [[result|[msg|key|msg|]] self']; cbn;
    eauto; congruence.
Qed.

Lemma input_error_raise {A} (func : A -> M AssistantBot.t value)
    (args : A) (self self' : AssistantBot.t) (err : exn) :
  func args self = (Raise err, self') ->
  err <> EOFError ->
  AssistantBot.input_error func args self =
  (Ok (VStr (match err with
             | TypeError _ => "Invalid input, some info is missing: "
             | KeyError _ => "Sorry, no such command: "
             | _ => "ValueError: "
             end ++ str_exn err)), self').
Proof.
  unfold AssistantBot.input_error. intros -> Hne.
  now destruct err.
Qed.

Lemma add_contact_no_eof (name phone : string) (self : PhoneBook.t) :
  fst (PhoneBook.add_contact name phone self) <> Raise EOFError.
Proof.
  rewrite add_contact_unfold.
  destruct (verify_phone_cases phone) as [->| ->]; [|easy].
  now destruct (Dict.contains name (PhoneBook.phones self)).
Qed.

Lemma change_contact_no_eof (name phone : string) (self : PhoneBook.t) :
  fst (PhoneBook.change_contact name phone self) <> Raise EOFError.
Proof.
  rewrite change_contact_unfold.
  destruct (verify_phone_cases phone) as [->| ->]; [|easy].
  now destruct (Dict.contains name (PhoneBook.phones self)).
Qed.

Lemma getitem_no_eof {V} (key : string) (d : Dict.dict V) :
  Dict.getitem key d <> Raise EOFError.
Proof.
  induction d as [|[k v] d IH]; cbn; [easy|].
  now destruct (String.eqb k key).
Qed.

Lemma show_phone_no_eof (name : string) (self : PhoneBook.t) :
  fst (PhoneBook.show_phone name self) <> Raise EOFError.
Proof.
  destruct (String.eqb_spec name "all") as [->|Hne].
  - now rewrite show_phone_all.
  - rewrite show_phone_name by assumption. apply getitem_no_eof.
Qed.

(** Every entry of the dispatch table returns normally. *)
Lemma handlers_return (command : string)
    (handler : list string -> M AssistantBot.t value)
    (args : list string) (self : AssistantBot.t) :
  Dict.getitem command AssistantBot.commands = Ok handler ->
  exists result, fst (handler args self) = Ok result.
Proof.
  unfold AssistantBot.commands. cbn [Dict.getitem].
  repeat match goal with
         | |- context [if ?b then _ else _] => destruct b
         end;
    intros [= <-]; apply input_error_ok.
  - unfold AssistantBot.hello_def. now destruct args.
  - unfold AssistantBot.add_def.
    destruct args as [|name [|phone [|more args]]]; try easy.
    pose proof (add_contact_no_eof name phone self) as H. after_call H.
  - unfold AssistantBot.change_def.
    destruct args as [|name [|phone [|more args]]]; try easy.
    pose proof (change_contact_no_eof name phone self) as H. after_call H.
  - unfold AssistantBot.show_def.
    destruct args as [|name [|more args]]; try easy.
    pose proof (show_phone_no_eof name self) as H. after_call H.
  - unfold AssistantBot.show_def.
    destruct args as [|name [|more args]]; try easy.
    pose proof (show_phone_no_eof name self) as H. after_call H.
Qed.

Lemma handle_returns (command : string) (args : list string)
    (self : AssistantBot.t) :
  exists result, fst (AssistantBot.handle command args self) = Ok result.
Proof.
  unfold AssistantBot.handle. apply input_error_ok.
  unfold AssistantBot.handle_def, bind, lift.
  destruct (Dict.getitem command AssistantBot.commands) as [handler|err] eqn:E.
  - destruct (handlers_return command handler args self E) as [result H].
    rewrite H. discriminate.
  - pose proof (getitem_no_eof command AssistantBot.commands) as H.
    rewrite E in H. cbn. intros [= ->]. now apply H.
Qed.

Lemma commands_getitem (command : string) :
  Dict.getitem command AssistantBot.commands =
  if String.eqb command "hello" then Ok AssistantBot.hello
  else if String.eqb command "add" then Ok AssistantBot.add
  else if String.eqb command "change" then Ok AssistantBot.change
  else if String.eqb command "phone" then Ok AssistantBot.show
  else if String.eqb command "show" then Ok AssistantBot.show
  else Raise (KeyError command).
Proof.
  unfold AssistantBot.commands. cbn [Dict.getitem].
  now rewrite !(String.eqb_sym _ command).
Qed.

(** A command of the table is answered by its handler. *)
Lemma handle_dispatch (command : string)
    (handler : list string -> M AssistantBot.t value)
    (args : list string) (self : AssistantBot.t) :
  Dict.getitem command AssistantBot.commands = Ok handler ->
  AssistantBot.handle command args self = handler args self.
Proof.
  intros E. destruct (handlers_return command handler args self E) as [r H].
  unfold AssistantBot.handle, AssistantBot.input_error,
    AssistantBot.handle_def, bind, lift.
  rewrite E. destruct (handler args self) as [[r'|err] self']; cbn in *;
    congruence.
Qed.

(** A command outside the table is answered by the message of the
    [KeyError] of the look-up. *)
Lemma handle_unknown (command : string) (args : list string)
    (self : AssistantBot.t) :
  Dict.getitem command AssistantBot.commands = Raise (KeyError command) ->
  AssistantBot.handle command args self
  = (Ok (VStr ("Sorry, no such command: " ++ PyStr.repr command)), self).
Proof.
  intros E.
  unfold AssistantBot.handle, AssistantBot.input_error,
    AssistantBot.handle_def, bind, lift.
  now rewrite E.
Qed.

Lemma call_error_type_error (qualname : string) (bound : nat)
    (params args : list string) :
  exists msg, AssistantBot.call_error qualname bound params args
              = TypeError msg.
Proof.
  unfold AssistantBot.call_error, AssistantBot.missing_error,
    AssistantBot.too_many_error.
  destruct (_ <? _)%nat; eauto.
Qed.

Lemma wrapped_call_error (func : list string -> M AssistantBot.t value)
    (qualname : string) (bound : nat) (params args : list string)
    (self : AssistantBot.t) :
  func args self
  = (Raise (AssistantBot.call_error qualname bound params args), self) ->
  exists msg,
    AssistantBot.input_error func args self
    = (Ok (VStr ("Invalid input, some info is missing: " ++ msg)), self).
Proof.
  destruct (call_error_type_error qualname bound params args) as [msg ->].
  intros H. exists msg. unfold AssistantBot.input_error. now rewrite H.
Qed.

(** C6: [handle] always returns and never raises; for a command that is not
    in the table it returns the message [Sorry, no such command: ...] naming
    the command, and for a command of the table called with a number of
    arguments other than the one it takes it returns the message
    [Invalid input, some info is missing: ...]; in both cases the store is
    untouched. *)
Theorem handle_never_raises
    (command : string) (args : list string) (self : AssistantBot.t) :
  (exists result, fst (AssistantBot.handle command args self) = Ok result) /\
  (Spec.arity command = None ->
   AssistantBot.handle command args self
   = (Ok (VStr ("Sorry, no such command: " ++ PyStr.repr command)), self)) /\
  (forall n,
   Spec.arity command = Some n ->
   List.length args <> n ->
   exists msg,
     AssistantBot.handle command args self
     = (Ok (VStr ("Invalid input, some info is missing: " ++ msg)), self)).
Proof.
  split; [apply handle_returns|].
  pose proof (commands_getitem command) as E.
  unfold Spec.arity.
  destruct (String.eqb command "hello");
    [|destruct (String.eqb command "add");
      [|destruct (String.eqb command "change");
        [|destruct (String.eqb command "phone");
          [|destruct (String.eqb command "show")]]]];
    (split; [try discriminate | intros n [= <-] Hlen]).
  - rewrite (handle_dispatch _ _ _ _ E).
    apply (wrapped_call_error _ "AssistantBot.hello" 0 []).
    unfold AssistantBot.hello_def.
    destruct args; [now contradiction Hlen | reflexivity].
  - rewrite (handle_dispatch _ _ _ _ E).
    apply (wrapped_call_error _ "AssistantBot.add" 1 ["name"; "phone"]).
    unfold AssistantBot.add_def.
    destruct args as [|name [|phone [|more args]]];
      [reflexivity | reflexivity | now contradiction Hlen | reflexivity].
  - rewrite (handle_dispatch _ _ _ _ E).
    apply (wrapped_call_error _ "AssistantBot.change" 1 ["name"; "phone"]).
    unfold AssistantBot.change_def.
    destruct args as [|name [|phone [|more args]]];
      [reflexivity | reflexivity | now contradiction Hlen | reflexivity].
  - rewrite (handle_dispatch _ _ _ _ E).
    apply (wrapped_call_error _ "AssistantBot.show" 1 ["name"]).
    unfold AssistantBot.show_def.
    destruct args as [|name [|more args]];
      [reflexivity | now contradiction Hlen | reflexivity].
  - rewrite (handle_dispatch _ _ _ _ E).
    apply (wrapped_call_error _ "AssistantBot.show" 1 ["name"]).
    unfold AssistantBot.show_def.
    destruct args as [|name [|more args]];
      [reflexivity | now contradiction Hlen | reflexivity].
  - intros _. now apply handle_unknown.
Qed.

(** Looking up a name that is not in the store raises the [KeyError] of the
    dictionary, and the handler's wrapper words it as an unknown command. *)
Lemma show_absent_name (name : string) (self : AssistantBot.t) :
  name <> "all" ->
  Dict.contains name (PhoneBook.phones self) = false ->
  PhoneBook.show_phone name self = (Raise (KeyError name), self) /\
  AssistantBot.handle "show" [name] self
  = (Ok (VStr ("Sorry, no such command: " ++ PyStr.repr name)), self).
Proof.
  intros Hne Habs.
  assert (Hshow : PhoneBook.show_phone name self = (Raise (KeyError name), self))
    by now rewrite show_phone_name, getitem_absent.
  split; [assumption|].
  rewrite (handle_dispatch "show" AssistantBot.show) by reflexivity.
  unfold AssistantBot.show, AssistantBot.input_error, AssistantBot.show_def,
    bind.
  now rewrite Hshow.
Qed.

(** C1: what the code does on the look-up of a missing contact.  On the empty
    store [show_phone("bob")] raises [KeyError('bob')], the exception class
    of the unknown-command look-up, and the dispatcher answers
    [show bob] with [Sorry, no such command: 'bob'], the very message it
    gives for the unknown command [bob]. *)
Theorem show_missing_contact_reads_as_unknown_command :
  PhoneBook.show_phone "bob" PhoneBook.init
  = (Raise (KeyError "bob"), PhoneBook.init) /\
  AssistantBot.handle "show" ["bob"] AssistantBot.init
  = (Ok (VStr "Sorry, no such command: 'bob'"), AssistantBot.init) /\
  AssistantBot.handle "bob" [] AssistantBot.init
  = AssistantBot.handle "show" ["bob"] AssistantBot.init.
Proof.
  assert (Hne : "bob" <> "all") by discriminate.
  destruct (show_absent_name "bob" AssistantBot.init Hne eq_refl)
    as [Hshow Hhandle].
  split; [exact Hshow | split; [exact Hhandle|]].
  rewrite Hhandle. now apply handle_unknown.
Qed.

(** ** The input loop *)

Lemma loop_stop_word (line : string) (inputs : list string)
    (bot : AssistantBot.t) :
  PyStr.lower line = "close" \/ PyStr.lower line = "exit" ->
  CliApp.loop (line :: inputs) bot = (["Good bye!"], CliApp.Break).
Proof.
  intros [H|H]; cbn [CliApp.loop]; rewrite H; reflexivity.
Qed.

Lemma loop_forwards (line command : string) (args inputs : list string)
    (bot : AssistantBot.t) :
  CliApp.parse_command (PyStr.lower line) = Ok (command, args) ->
  existsb (String.eqb command) CliApp.stop_words = false ->
  CliApp.loop (line :: inputs) bot =
  match AssistantBot.handle command args bot with
  | (Raise err, _) => ([], CliApp.Uncaught err)
  | (Ok result, bot') =>
      let (printed, e) := CliApp.loop inputs bot' in
      ((if truthy result then CliApp.print result else []) ++ printed, e)%list
  end.
Proof.
  intros Hparse Hstop. cbn [CliApp.loop]. now rewrite Hparse, Hstop.
Qed.

(** C2: what the code does on the stop words.  The lines [close] and [exit]
    print the farewell and end the loop, but the line [good bye] is split
    into the command [good] and the argument [bye], is forwarded to the
    dispatcher, which answers that there is no such command, and the loop
    goes on with the next line. *)
Theorem good_bye_line_is_forwarded
    (inputs : list string) (bot : AssistantBot.t) :
  CliApp.loop ("close" :: inputs) bot = (["Good bye!"], CliApp.Break) /\
  CliApp.loop ("exit" :: inputs) bot = (["Good bye!"], CliApp.Break) /\
  CliApp.loop ("good bye" :: inputs) bot
  = ("Sorry, no such command: 'good'" :: fst (CliApp.loop inputs bot),
     snd (CliApp.loop inputs bot)) /\
  CliApp.run ["good bye"]
  = (["Sorry, no such command: 'good'"], CliApp.Uncaught EOFError).
Proof.
  split; [|split; [|split]].
  - apply loop_stop_word. now left.
  - apply loop_stop_word. now right.
  - rewrite (loop_forwards "good bye" "good" ["bye"]) by reflexivity.
    rewrite handle_unknown by reflexivity.
    now destruct (CliApp.loop inputs bot).
  - reflexivity.
Qed.

(** ** The theorems at concrete stores *)

Lemma add_contact_validates_then_inserts_witness :
  PhoneBook.add_contact "bob" "12345" alice_book
  = (Raise (ValueError "Invalid phone format"), alice_book) /\
  PhoneBook.add_contact "alice" "0000000000" alice_book
  = (Raise (ValueError PhoneBook.duplicate_message), alice_book) /\
  PhoneBook.add_contact "bob" "+123456789012" alice_book
  = (Ok tt, alice_bob_book) /\
  snd (PhoneBook.add_contact "alice" "12345" alice_book) = alice_book.
Proof.
  split; [|split; [|split]].
  - apply (proj1 (add_contact_validates_then_inserts
                    "bob" "12345" alice_book)).
    vm_compute. discriminate.
  - apply (proj1 (proj2 (add_contact_validates_then_inserts
                           "alice" "0000000000" alice_book)));
      reflexivity.
  - apply (proj1 (proj2 (proj2 (add_contact_validates_then_inserts
                                  "bob" "+123456789012" alice_book))));
      reflexivity.
  - apply (proj2 (proj2 (proj2 (add_contact_validates_then_inserts
                                  "alice" "12345" alice_book)))
             (ValueError "Invalid phone format")).
    reflexivity.
Defined.

Lemma change_contact_validates_then_overwrites_witness :
  PhoneBook.change_contact "alice" "12345" alice_book
  = (Raise (ValueError "Invalid phone format"), alice_book) /\
  PhoneBook.change_contact "bob" "+123456789012" alice_book
  = (Raise (ValueError PhoneBook.unknown_message), alice_book) /\
  (exists self',
     PhoneBook.change_contact "alice" "0000000000" alice_bob_book
     = (Ok tt, self') /\
     Dict.getitem "alice" (PhoneBook.phones self') = Ok "0000000000" /\
     Dict.keys (PhoneBook.phones self') = ["alice"; "bob"] /\
     forall other, other <> "alice" ->
       Dict.getitem other (PhoneBook.phones self')
       = Dict.getitem other (PhoneBook.phones alice_bob_book)) /\
  snd (PhoneBook.change_contact "bob" "0000000000" alice_book) = alice_book.
Proof.
  split; [|split; [|split]].
  - apply (proj1 (change_contact_validates_then_overwrites
                    "alice" "12345" alice_book)).
    vm_compute. discriminate.
  - apply (proj1 (proj2 (change_contact_validates_then_overwrites
                           "bob" "+123456789012" alice_book)));
      reflexivity.
  - apply (proj1 (proj2 (proj2 (change_contact_validates_then_overwrites
                                  "alice" "0000000000" alice_bob_book))));
      reflexivity.
  - apply (proj2 (proj2 (proj2 (change_contact_validates_then_overwrites
                                  "bob" "0000000000" alice_book)))
             (ValueError PhoneBook.unknown_message)).
    reflexivity.
Defined.

Lemma handle_never_raises_witness :
  (exists result,
     fst (AssistantBot.handle "add" ["bob"] alice_book) = Ok result) /\
  AssistantBot.handle "foo" [] alice_book
  = (Ok (VStr "Sorry, no such command: 'foo'"), alice_book) /\
  (exists msg,
     AssistantBot.handle "add" ["bob"] alice_book
     = (Ok (VStr ("Invalid input, some info is missing: " ++ msg)),
        alice_book)).
Proof.
  split; [|split].
  - apply (proj1 (handle_never_raises "add" ["bob"] alice_book)).
  - apply (proj1 (proj2 (handle_never_raises "foo" [] alice_book))).
    reflexivity.
  - apply (proj2 (proj2 (handle_never_raises "add" ["bob"] alice_book)) 2).
    + reflexivity.
    + simpl. lia.
Defined.

Lemma show_phone_all_lists_in_insertion_order_witness :
  PhoneBook.show_phone "all" PhoneBook.init
  = (Ok "You do not have any contacts yet.", PhoneBook.init) /\
  PhoneBook.show_phone "all" alice_bob_book
  = (Ok (Spec.line ("alice", "1234567890")
         ++ Spec.line ("bob", "+123456789012")), alice_bob_book) /\
  PhoneBook.show_phone "all" alice_bob_book
  = (Ok (Spec.listing (PhoneBook.phones alice_book)
         ++ Spec.line ("bob", "+123456789012")), alice_bob_book) /\
  Dict.keys (PhoneBook.phones
               (PhoneBook.Build [("alice", "0000000000");
                                 ("bob", "+123456789012")]))
  = Dict.keys (PhoneBook.phones alice_bob_book).
Proof.
  split; [|split; [|split]].
  - apply (proj1 (show_phone_all_lists_in_insertion_order
                    "bob" "+123456789012" PhoneBook.init alice_book)).
    reflexivity.
  - apply (proj1 (proj2 (show_phone_all_lists_in_insertion_order
                           "bob" "+123456789012" alice_bob_book alice_book))).
    simpl. discriminate.
  - apply (proj1 (proj2 (proj2 (show_phone_all_lists_in_insertion_order
                                  "bob" "+123456789012"
                                  alice_book alice_bob_book)))).
    reflexivity.
  - apply (proj2 (proj2 (proj2 (show_phone_all_lists_in_insertion_order
                                  "alice" "0000000000" alice_bob_book
                                  (PhoneBook.Build
                                     [("alice", "0000000000");
                                      ("bob", "+123456789012")]))))).
    reflexivity.
Defined.

Lemma add_then_show_returns_phone_witness :
  "bob" <> "all" /\
  PhoneBook.add_contact "bob" "+123456789012" alice_book
  = (Ok tt, alice_bob_book) /\
  PhoneBook.verify_phone "+123456789012" = Ok tt /\
  PhoneBook.show_phone "bob" alice_bob_book
  = (Ok "+123456789012", alice_bob_book).
Proof.
  assert (Hne : "bob" <> "all") by discriminate.
  assert (Hadd : PhoneBook.add_contact "bob" "+123456789012" alice_book
                 = (Ok tt, alice_bob_book)) by reflexivity.
  split; [exact Hne | split; [exact Hadd|]].
  exact (add_then_show_returns_phone "bob" "+123456789012"
           alice_book alice_bob_book Hne Hadd).
Defined.

Lemma reachable_store_invariant_witness :
  reachable alice_bob_book /\
  PhoneBook.verify_phone "+123456789012" = Ok tt /\
  NoDup ["alice"; "bob"] /\
  exists err,
    PhoneBook.add_contact "bob" "0000000000" alice_bob_book
    = (Raise err, alice_bob_book).
Proof.
  assert (Hr : reachable alice_bob_book).
  { exact (reachable_add "bob" "+123456789012" alice_book
             (reachable_add "alice" "1234567890" PhoneBook.init
                reachable_init)). }
  destruct (reachable_store_invariant alice_bob_book Hr) as (Hv & Hn & Hdup).
  split; [exact Hr | split; [|split]].
  - apply (Hv "bob"). simpl. right. left. reflexivity.
  - exact Hn.
  - apply Hdup. reflexivity.
Defined.

Lemma all_is_stored_but_never_looked_up_witness :
  PhoneBook.add_contact "all" "0000000000" alice_book
  = (Ok tt, PhoneBook.Build [("alice", "1234567890"); ("all", "0000000000")])
  /\
  fst (PhoneBook.show_phone "all"
         (PhoneBook.Build [("alice", "1234567890"); ("all", "0000000000")]))
  <> Ok "0000000000".
Proof.
  split.
  - apply (proj1 (all_is_stored_but_never_looked_up
                    "0000000000" alice_book)); reflexivity.
  - apply (proj2 (proj2 (all_is_stored_but_never_looked_up
                           "0000000000"
                           (PhoneBook.Build [("alice", "1234567890");
                                             ("all", "0000000000")])))).
    reflexivity.
Defined.

(** * Further properties of the code *)

(** ** Splitting a line into tokens *)

Lemma no_space_app (s1 s2 : string) :
  no_space (s1 ++ s2) = no_space s1 && no_space s2.
Proof.
  induction s1 as [|c s1 IH]; cbn; [reflexivity|].
  now rewrite IH, andb_assoc.
Qed.

Lemma append_empty (s1 s2 : string) : s1 ++ s2 = "" -> s1 = "" /\ s2 = "".
Proof. destruct s1; cbn; [now split | discriminate]. Qed.

Lemma split_from_nil (cur s : string) :
  PyStr.split_from cur s = [] <-> cur = "" /\ all_space s = true.
Proof.
  revert cur; induction s as [|c s IH]; intros cur; cbn.
  - destruct cur; split; intros H; easy.
  - destruct (PyStr.isspace c); cbn.
    + destruct cur; [apply IH|].
      split; [discriminate | now intros [? _]].
    + rewrite IH. split; [|now intros [_ ?]].
      intros [H _]. apply append_empty in H as [_ H]. discriminate.
Qed.

Lemma split_from_tokens (cur s : string) :
  no_space cur = true -> Forall token (PyStr.split_from cur s).
Proof.
  revert cur; induction s as [|c s IH]; intros cur Hcur; cbn.
  - destruct cur; constructor; [|constructor]. now split.
  - destruct (PyStr.isspace c) eqn:Hc.
    + destruct cur; [now apply IH|].
      constructor; [now split | now apply IH].
    + apply IH. rewrite no_space_app, Hcur. cbn. now rewrite Hc.
Qed.

Lemma split_from_token (cur t s : string) :
  no_space t = true ->
  PyStr.split_from cur (t ++ s) = PyStr.split_from (cur ++ t) s.
Proof.
  revert cur; induction t as [|c t IH]; intros cur Ht; cbn.
  - now rewrite append_nil_r.
  - cbn in Ht. apply andb_true_iff in Ht as [Hc Ht].
    apply negb_true_iff in Hc. rewrite Hc, IH by assumption.
    now rewrite append_assoc.
Qed.

Lemma split_join_spaces (tokens : list string) :
  Forall token tokens -> PyStr.split (join_spaces tokens) = tokens.
Proof.
  unfold PyStr.split.
  induction 1 as [|t tokens [Hne Ht] Htokens IH]; [reflexivity|].
  destruct tokens as [|t' tokens].
  - cbn [join_spaces]. rewrite <- (append_nil_r t) at 1.
    rewrite split_from_token by assumption. cbn. now destruct t.
  - change (join_spaces (t :: t' :: tokens))
      with (t ++ String " " (join_spaces (t' :: tokens))).
    rewrite split_from_token by assumption.
    cbn [append PyStr.split_from].
    change (PyStr.isspace " ") with true. cbn iota.
    rewrite IH. now destruct t.
Qed.

(** X1: [parse_command] raises [ValueError()] exactly on the lines that hold
    nothing but white space (the empty line among them); on every other line
    it returns the first token as the command and the remaining tokens as
    the arguments. *)
Theorem parse_command_blank (user_input : string) :
  (all_space user_input = true /\
   CliApp.parse_command user_input = Raise (ValueError "")) \/
  (all_space user_input = false /\
   exists command args,
     CliApp.parse_command user_input = Ok (command, args) /\
     PyStr.split user_input = command :: args).
Proof.
  unfold CliApp.parse_command.
  destruct (PyStr.split user_input) as [|command args] eqn:E.
  - left. split; [|reflexivity]. now apply (split_from_nil "").
  - right. split; [|now exists command, args].
    destruct (all_space user_input) eqn:Hs; [|reflexivity].
    assert (H : PyStr.split user_input = []) by now apply (split_from_nil "").
    congruence.
Qed.

(** X2: the command and the arguments [parse_command] returns are never
    empty and hold no white space; in particular the command is never the
    two-word stop word [good bye]. *)
Theorem parse_command_tokens
    (user_input command : string) (args : list string) :
  CliApp.parse_command user_input = Ok (command, args) ->
  token command /\ Forall token args /\ command <> "good bye".
Proof.
  unfold CliApp.parse_command.
  pose proof (split_from_tokens "" user_input eq_refl) as H.
  fold (PyStr.split user_input) in H.
  destruct (PyStr.split user_input) as [|c a]; [discriminate|].
  intros [= <- <-]. inversion H as [|? ? Hc Ha]; subst.
  repeat split; try assumption; try apply Hc.
  intros ->. now destruct Hc as [_ Hc].
Qed.

(** X3: a command and arguments that are tokens (not empty, no white space),
    written on one line with single spaces between them, are parsed back to
    themselves. *)
Theorem parse_command_join
    (command : string) (args : list string) :
  token command -> Forall token args ->
  CliApp.parse_command (join_spaces (command :: args)) = Ok (command, args).
Proof.
  intros Hc Ha. unfold CliApp.parse_command.
  rewrite split_join_spaces; [reflexivity | now constructor].
Qed.

(** ** The phone pattern, again *)

(** X4: validation looks at the start of the phone only: whatever is
    appended to an accepted phone, the result is accepted too; and no
    accepted phone is shorter than 10 characters. *)
Theorem verify_phone_ignores_suffix (phone suffix : string) :
  PhoneBook.verify_phone phone = Ok tt ->
  PhoneBook.verify_phone (phone ++ suffix) = Ok tt /\
  10 <= String.length phone.
Proof.
  rewrite !verify_phone_ok_iff.
  intros (d & Hd & Hshape). split.
  - exists d. split; [assumption|].
    destruct Hshape as [[Hlen [[rest ->]|[rest ->]]]|[Hlen [rest ->]]].
    + left. split; [assumption|]. left. exists (rest ++ suffix).
      now rewrite append_assoc.
    + left. split; [assumption|]. right. exists (rest ++ suffix).
      now rewrite append_assoc.
    + right. split; [assumption|]. exists (rest ++ suffix).
      now rewrite append_assoc.
  - destruct Hshape as [[Hlen [[rest ->]|[rest ->]]]|[Hlen [rest ->]]];
      rewrite !length_append; lia.
Qed.

(** ** More on the contact store *)

(** X5: for a valid phone exactly one of [add_contact] and
    [change_contact] succeeds on a given store: [add_contact] when the name
    is absent, [change_contact] when it is present; the other one raises its
    [ValueError]. *)
Theorem add_or_change_succeeds
    (name phone : string) (self : PhoneBook.t) :
  PhoneBook.verify_phone phone = Ok tt ->
  (Dict.contains name (PhoneBook.phones self) = false /\
   fst (PhoneBook.add_contact name phone self) = Ok tt /\
   fst (PhoneBook.change_contact name phone self)
   = Raise (ValueError PhoneBook.unknown_message)) \/
  (Dict.contains name (PhoneBook.phones self) = true /\
   fst (PhoneBook.add_contact name phone self)
   = Raise (ValueError PhoneBook.duplicate_message) /\
   fst (PhoneBook.change_contact name phone self) = Ok tt).
Proof.
  intros Hv. rewrite add_contact_unfold, change_contact_unfold, Hv.
  destruct (Dict.contains name (PhoneBook.phones self));
    [right | left]; now repeat split.
Qed.

(** X6: after a successful [change_contact(name, phone)], for a name other
    than [all], [show_phone(name)] returns the new phone, and the look-up of
    every other name gives what it gave before. *)
Theorem change_then_show
    (name other phone : string) (self self' : PhoneBook.t) :
  name <> "all" ->
  PhoneBook.change_contact name phone self = (Ok tt, self') ->
  PhoneBook.show_phone name self' = (Ok phone, self') /\
  (other <> name -> other <> "all" ->
   fst (PhoneBook.show_phone other self')
   = fst (PhoneBook.show_phone other self)).
Proof.
  intros Hne. rewrite change_contact_unfold.
  destruct (PhoneBook.verify_phone phone) as [[]|]; [|discriminate].
  destruct (Dict.contains name (PhoneBook.phones self)); [|discriminate].
  intros [= <-]. split.
  - rewrite (show_phone_name _ _ Hne). cbn [PhoneBook.phones].
    now rewrite getitem_setitem_same.
  - intros Ho Hall. rewrite !show_phone_name by assumption.
    cbn [fst PhoneBook.phones]. now apply getitem_setitem_other.
Qed.

(** X7: a successful [add_contact(name, phone)] does not disturb the other
    contacts: the look-up of every other name gives what it gave before, and
    the listing of [show_phone("all")] keeps all its former lines in front
    of the new one. *)
Theorem add_keeps_other_contacts
    (name other phone : string) (self self' : PhoneBook.t) :
  PhoneBook.add_contact name phone self = (Ok tt, self') ->
  other <> name -> other <> "all" ->
  fst (PhoneBook.show_phone other self')
  = fst (PhoneBook.show_phone other self) /\
  Spec.listing (PhoneBook.phones self')
  = Spec.listing (PhoneBook.phones self) ++ Spec.line (name, phone).
Proof.
  rewrite add_contact_unfold.
  destruct (PhoneBook.verify_phone phone) as [[]|]; [|discriminate].
  destruct (Dict.contains name (PhoneBook.phones self)) eqn:Habs;
    [discriminate|].
  intros [= <-] Ho Hall. split.
  - rewrite !show_phone_name by assumption.
    cbn [fst PhoneBook.phones]. now apply getitem_setitem_other.
  - cbn [PhoneBook.phones]. rewrite (setitem_absent _ _ _ Habs), listing_app.
    cbn [Spec.listing]. now rewrite append_nil_r.
Qed.

(** ** More on the dispatcher *)

Lemma add_call (name phone : string) (self : AssistantBot.t) :
  AssistantBot.add [name; phone] self =
  match PhoneBook.verify_phone phone with
  | Raise _ => (Ok (VStr "ValueError: Invalid phone format"), self)
  | Ok _ =>
      if Dict.contains name (PhoneBook.phones self)
      then (Ok (VStr ("ValueError: " ++ PhoneBook.duplicate_message)), self)
      else (Ok VNone,
            PhoneBook.Build
              (Dict.setitem name phone (PhoneBook.phones self)))
  end.
Proof.
  unfold AssistantBot.add, AssistantBot.input_error, AssistantBot.add_def,
    bind, ret.
  rewrite add_contact_unfold.
  destruct (verify_phone_cases phone) as [->| ->]; [|reflexivity].
  now destruct (Dict.contains name (PhoneBook.phones self)).
Qed.

Lemma change_call (name phone : string) (self : AssistantBot.t) :
  AssistantBot.change [name; phone] self =
  match PhoneBook.verify_phone phone with
  | Raise _ => (Ok (VStr "ValueError: Invalid phone format"), self)
  | Ok _ =>
      if Dict.contains name (PhoneBook.phones self)
      then (Ok VNone,
            PhoneBook.Build
              (Dict.setitem name phone (PhoneBook.phones self)))
      else (Ok (VStr ("ValueError: " ++ PhoneBook.unknown_message)), self)
  end.
Proof.
  unfold AssistantBot.change, AssistantBot.input_error,
    AssistantBot.change_def, bind, ret.
  rewrite change_contact_unfold.
  destruct (verify_phone_cases phone) as [->| ->]; [|reflexivity].
  now destruct (Dict.contains name (PhoneBook.phones self)).
Qed.

Lemma show_call (name : string) (self : AssistantBot.t) :
  AssistantBot.show [name] self =
  if String.eqb name "all"
  then (Ok (VStr match PhoneBook.phones self with
                 | [] => "You do not have any contacts yet."
                 | _ => Spec.listing (PhoneBook.phones self)
                 end), self)
  else match Dict.getitem name (PhoneBook.phones self) with
       | Ok phone => (Ok (VStr phone), self)
       | Raise _ =>
           (Ok (VStr ("Sorry, no such command: " ++ PyStr.repr name)), self)
       end.
Proof.
  unfold AssistantBot.show, AssistantBot.input_error, AssistantBot.show_def,
    bind, ret.
  destruct (String.eqb_spec name "all") as [->|Hne].
  - now rewrite show_phone_all.
  - rewrite show_phone_name by assumption.
    destruct (Dict.getitem name (PhoneBook.phones self)) as [phone|err] eqn:E;
      [reflexivity|].
    destruct (Dict.contains name (PhoneBook.phones self)) eqn:Hc.
    + destruct (getitem_present _ _ Hc) as [v Hv]. congruence.
    + rewrite (getitem_absent _ _ Hc) in E. now injection E as <-.
Qed.

Lemma message_outcome (command : string) (args : list string)
    (self : AssistantBot.t) (out : result value * AssistantBot.t)
    (c : ascii) (text : string) :
  out = (Ok (VStr (String c text)), self) ->
  handler_outcome command args self out.
Proof. intros ->. left. now exists (String c text). Qed.

Lemma arity_outcome (command : string)
    (func : list string -> M AssistantBot.t value)
    (qualname : string) (bound : nat) (params args : list string)
    (self : AssistantBot.t) :
  func args self
  = (Raise (AssistantBot.call_error qualname bound params args), self) ->
  handler_outcome command args self
    (AssistantBot.input_error func args self).
Proof.
  intros H.
  destruct (wrapped_call_error func qualname bound params args self H)
    as [msg ->].
  now eapply message_outcome.
Qed.

Lemma show_outcome (command : string) (args : list string)
    (self : AssistantBot.t) :
  command = "show" \/ command = "phone" ->
  handler_outcome command args self (AssistantBot.show args self).
Proof.
  intros Hc.
  destruct args as [|name [|more args]];
    [now apply (arity_outcome _ _ "AssistantBot.show" 1 ["name"])
    | | now apply (arity_outcome _ _ "AssistantBot.show" 1 ["name"])].
  rewrite show_call.
  destruct (String.eqb_spec name "all") as [->|Hne].
  - right. left. exists "all". eexists. repeat split; try assumption.
    apply show_phone_all.
  - destruct (Dict.getitem name (PhoneBook.phones self)) as [phone|err] eqn:E.
    + right. left. exists name, phone. repeat split; try assumption.
      now rewrite show_phone_name, E.
    + now eapply message_outcome.
Qed.

(** Every call of the dispatcher comes to one of the three outcomes. *)
Lemma handle_outcome (command : string) (args : list string)
    (self : AssistantBot.t) :
  handler_outcome command args self (AssistantBot.handle command args self).
Proof.
  generalize (commands_getitem command).
  destruct (String.eqb_spec command "hello") as [->|_].
  { intros E. rewrite (handle_dispatch _ _ _ _ E).
    destruct args;
      [now eapply message_outcome
      | now apply (arity_outcome _ _ "AssistantBot.hello" 0 [])]. }
  destruct (String.eqb_spec command "add") as [->|_].
  { intros E. rewrite (handle_dispatch _ _ _ _ E).
    destruct args as [|name [|phone [|more args]]];
      try now apply (arity_outcome _ _ "AssistantBot.add" 1 ["name"; "phone"]).
    rewrite add_call.
    destruct (verify_phone_cases phone) as [Hv|Hv]; rewrite Hv;
      [|now eapply message_outcome].
    destruct (Dict.contains name (PhoneBook.phones self)) eqn:Hc;
      [now eapply message_outcome|].
    right. right. exists name, phone. repeat split; try assumption.
    now left. }
  destruct (String.eqb_spec command "change") as [->|_].
  { intros E. rewrite (handle_dispatch _ _ _ _ E).
    destruct args as [|name [|phone [|more args]]];
      try now apply
        (arity_outcome _ _ "AssistantBot.change" 1 ["name"; "phone"]).
    rewrite change_call.
    destruct (verify_phone_cases phone) as [Hv|Hv]; rewrite Hv;
      [|now eapply message_outcome].
    destruct (Dict.contains name (PhoneBook.phones self)) eqn:Hc;
      [|now eapply message_outcome].
    right. right. exists name, phone. repeat split; try assumption.
    now right. }
  destruct (String.eqb_spec command "phone") as [->|_].
  { intros E. rewrite (handle_dispatch _ _ _ _ E).
    apply show_outcome. now right. }
  destruct (String.eqb_spec command "show") as [->|_].
  { intros E. rewrite (handle_dispatch _ _ _ _ E).
    apply show_outcome. now left. }
  intros E. rewrite (handle_unknown _ _ _ E). now eapply message_outcome.
Qed.

Lemma contains_setitem {V} (key other : string) (v : V) (d : Dict.dict V) :
  Dict.contains other d = true ->
  Dict.contains other (Dict.setitem key v d) = true.
Proof.
  induction d as [|[k w] d IH]; cbn; [discriminate|].
  destruct (String.eqb k key); cbn; [easy|].
  destruct (String.eqb k other); cbn; [easy | exact IH].
Qed.

Lemma verified_not_empty (phone : string) :
  PhoneBook.verify_phone phone = Ok tt -> phone <> "".
Proof. now intros H ->. Qed.

(** X8: the command [add] with a name and a phone: an invalid phone is
    answered with [ValueError: Invalid phone format], a name already present
    with the duplicate-name message, both leaving the store as it was;
    otherwise the contact is stored after the others and the answer is
    [None]. *)
Theorem handle_add (name phone : string) (self : AssistantBot.t) :
  (PhoneBook.verify_phone phone <> Ok tt ->
   AssistantBot.handle "add" [name; phone] self
   = (Ok (VStr "ValueError: Invalid phone format"), self)) /\
  (PhoneBook.verify_phone phone = Ok tt ->
   Dict.contains name (PhoneBook.phones self) = true ->
   AssistantBot.handle "add" [name; phone] self
   = (Ok (VStr ("ValueError: " ++ PhoneBook.duplicate_message)), self)) /\
  (PhoneBook.verify_phone phone = Ok tt ->
   Dict.contains name (PhoneBook.phones self) = false ->
   AssistantBot.handle "add" [name; phone] self
   = (Ok VNone,
      PhoneBook.Build (PhoneBook.phones self ++ [(name, phone)])%list)).
Proof.
  rewrite (handle_dispatch "add" AssistantBot.add) by reflexivity.
  rewrite add_call. split; [|split].
  - intros H. now rewrite (verify_phone_not_ok _ H).
  - now intros -> ->.
  - intros -> Habs. now rewrite Habs, setitem_absent.
Qed.

(** X9: the command [change] with a name and a phone: an invalid phone is
    answered with [ValueError: Invalid phone format], a name not in the
    store with the unknown-name message, both leaving the store as it was;
    otherwise the phone of the name is replaced and the answer is [None]. *)
Theorem handle_change (name phone : string) (self : AssistantBot.t) :
  (PhoneBook.verify_phone phone <> Ok tt ->
   AssistantBot.handle "change" [name; phone] self
   = (Ok (VStr "ValueError: Invalid phone format"), self)) /\
  (PhoneBook.verify_phone phone = Ok tt ->
   Dict.contains name (PhoneBook.phones self) = false ->
   AssistantBot.handle "change" [name; phone] self
   = (Ok (VStr ("ValueError: " ++ PhoneBook.unknown_message)), self)) /\
  (PhoneBook.verify_phone phone = Ok tt ->
   Dict.contains name (PhoneBook.phones self) = true ->
   exists self',
     AssistantBot.handle "change" [name; phone] self = (Ok VNone, self') /\
     Dict.getitem name (PhoneBook.phones self') = Ok phone /\
     Dict.keys (PhoneBook.phones self') = Dict.keys (PhoneBook.phones self)).
Proof.
  rewrite (handle_dispatch "change" AssistantBot.change) by reflexivity.
  rewrite change_call. split; [|split].
  - intros H. now rewrite (verify_phone_not_ok _ H).
  - now intros -> ->.
  - intros -> Hin. rewrite Hin. eexists. split; [reflexivity|].
    cbn [PhoneBook.phones]. split.
    + apply getitem_setitem_same.
    + now apply setitem_present_keys.
Qed.

(** X10: the commands [phone] and [show] are the same command; with the
    argument [all] they answer with the listing of the store (the
    no-contacts message when it is empty), and with the name of a contact
    they answer with its phone; the store is left as it was. *)
Theorem handle_show_and_phone
    (args : list string) (name : string) (self : AssistantBot.t) :
  AssistantBot.handle "phone" args self
  = AssistantBot.handle "show" args self /\
  AssistantBot.handle "show" ["all"] self
  = (Ok (VStr match PhoneBook.phones self with
              | [] => "You do not have any contacts yet."
              | _ => Spec.listing (PhoneBook.phones self)
              end), self) /\
  (forall phone,
   name <> "all" ->
   Dict.getitem name (PhoneBook.phones self) = Ok phone ->
   AssistantBot.handle "show" [name] self = (Ok (VStr phone), self)).
Proof.
  rewrite (handle_dispatch "phone" AssistantBot.show) by reflexivity.
  rewrite !(handle_dispatch "show" AssistantBot.show) by reflexivity.
  split; [reflexivity | split].
  - now rewrite show_call.
  - intros phone Hne Hget. rewrite show_call, Hget.
    now destruct (String.eqb_spec name "all").
Qed.

(** X11: the dispatcher changes the store only through a successful [add]
    or [change]: when the store after a call differs from the store before,
    the command was one of these two with a name and a valid phone, the
    answer was [None], and the new store is the old one with that phone set
    for that name. *)
Theorem handle_changes_store_only_by_add_or_change
    (command : string) (args : list string) (self : AssistantBot.t) :
  snd (AssistantBot.handle command args self) <> self ->
  exists name phone,
    (command = "add" \/ command = "change") /\ args = [name; phone] /\
    PhoneBook.verify_phone phone = Ok tt /\
    AssistantBot.handle command args self
    = (Ok VNone,
       PhoneBook.Build (Dict.setitem name phone (PhoneBook.phones self))).
Proof.
  destruct (handle_outcome command args self)
    as [(text & _ & ->)|[(name & phone & _ & _ & _ & ->)
                        |(name & phone & Hc & Ha & Hv & _ & ->)]];
    cbn [snd]; try easy.
  intros _. now exists name, phone.
Qed.

(** X12: the invariant of the store survives every call of the dispatcher,
    whatever the command and the arguments: every stored phone still passes
    [verify_phone] and no name is stored twice. *)
Theorem handle_preserves_store_ok
    (command : string) (args : list string) (self : AssistantBot.t) :
  store_ok self -> store_ok (snd (AssistantBot.handle command args self)).
Proof.
  intros [Hv Hn].
  destruct (handle_outcome command args self)
    as [(text & _ & ->)|[(name & phone & _ & _ & _ & ->)
                        |(name & phone & _ & _ & Hp & _ & ->)]];
    cbn [snd]; try now split.
  split; cbn [PhoneBook.phones].
  - now apply setitem_keeps_verified.
  - now apply setitem_keeps_nodup.
Qed.

(** X13: on a store that satisfies the invariant, the only calls of the
    dispatcher whose answer the input loop does not print (an answer that is
    [None] or empty) are the successful [add] and [change]: every other
    call, failures included, answers with a string that is not empty. *)
Theorem handle_silent_only_on_success
    (command : string) (args : list string) (self : AssistantBot.t)
    (result : value) :
  store_ok self ->
  fst (AssistantBot.handle command args self) = Ok result ->
  truthy result = false ->
  result = VNone /\
  exists name phone,
    (command = "add" \/ command = "change") /\ args = [name; phone] /\
    PhoneBook.verify_phone phone = Ok tt.
Proof.
  intros [Hv _].
  destruct (handle_outcome command args self)
    as [(text & Hne & ->)|[(name & phone & _ & _ & Hshow & ->)
                          |(name & phone & Hc & Ha & Hp & _ & ->)]];
    cbn [fst]; intros [= <-]; cbn [truthy].
  - now destruct text.
  - destruct phone as [|c phone]; [|discriminate]. intros _. exfalso.
    destruct (String.eqb_spec name "all") as [->|Hne].
    + rewrite show_phone_all in Hshow.
      now destruct (PhoneBook.phones self) as [|[n p] items].
    + rewrite show_phone_name in Hshow by assumption.
      injection Hshow as Hget. apply getitem_ok_in in Hget.
      now apply (verified_not_empty "" (Hv name "" Hget)).
  - intros _. split; [reflexivity|]. now exists name, phone.
Qed.

(** X14: no call of the dispatcher removes a contact: a name that is in the
    store before a call is in the store after it. *)
Theorem handle_keeps_contacts
    (command name : string) (args : list string) (self : AssistantBot.t) :
  Dict.contains name (PhoneBook.phones self) = true ->
  Dict.contains name
    (PhoneBook.phones (snd (AssistantBot.handle command args self))) = true.
Proof.
  intros Hin.
  destruct (handle_outcome command args self)
    as [(text & _ & ->)|[(n & p & _ & _ & _ & ->)
                        |(n & p & _ & _ & _ & _ & ->)]];
    cbn [snd PhoneBook.phones]; try assumption.
  now apply contains_setitem.
Qed.

(** X15: the decorator applied twice does what it does applied once, so the
    wrapper around [handle] adds nothing to what the wrapped handlers
    return; and it never alters the state the wrapped function leaves. *)
Theorem input_error_idempotent {A} (func : A -> M AssistantBot.t value)
    (args : A) (self : AssistantBot.t) :
  AssistantBot.input_error (AssistantBot.input_error func) args self
  = AssistantBot.input_error func args self /\
  snd (AssistantBot.input_error func args self) = snd (func args self).
Proof.
  unfold AssistantBot.input_error.
  now destruct (func args self) as [[result|[msg|key|msg|]] self'].
Qed.

(** ** More on the input loop *)

Lemma lower_char_idempotent (c : ascii) :
  PyStr.lower_char (PyStr.lower_char c) = PyStr.lower_char c.
Proof. destruct c as [[] [] [] [] [] [] [] []]; vm_compute; reflexivity. Qed.

Lemma isspace_lower_char (c : ascii) :
  PyStr.isspace (PyStr.lower_char c) = PyStr.isspace c.
Proof. destruct c as [[] [] [] [] [] [] [] []]; vm_compute; reflexivity. Qed.

Lemma lower_idempotent (s : string) :
  PyStr.lower (PyStr.lower s) = PyStr.lower s.
Proof.
  induction s as [|c s IH]; cbn; [reflexivity|].
  now rewrite lower_char_idempotent, IH.
Qed.

Lemma all_space_lower (s : string) :
  all_space (PyStr.lower s) = all_space s.
Proof.
  induction s as [|c s IH]; cbn; [reflexivity|].
  now rewrite isspace_lower_char, IH.
Qed.

(** X16: a line that is empty or holds only white space ends the loop with
    the [ValueError] of [parse_command], which nothing catches; nothing is
    printed for it and no later line is read. *)
Theorem loop_blank_line (line : string) (inputs : list string)
    (bot : AssistantBot.t) :
  all_space line = true ->
  CliApp.loop (line :: inputs) bot = ([], CliApp.Uncaught (ValueError "")).
Proof.
  intros Hs. cbn [CliApp.loop]. unfold CliApp.parse_command.
  assert (H : PyStr.split (PyStr.lower line) = []).
  { apply (split_from_nil ""). now rewrite all_space_lower. }
  now rewrite H.
Qed.

(** X17: a line whose first token, in lower case, is [close] or [exit] ends
    the loop with the farewell, whatever tokens follow it on the line and
    whatever the state of the bot. *)
Theorem loop_stops_on_first_token
    (line command : string) (args inputs : list string)
    (bot : AssistantBot.t) :
  PyStr.split (PyStr.lower line) = command :: args ->
  command = "close" \/ command = "exit" ->
  CliApp.loop (line :: inputs) bot = (["Good bye!"], CliApp.Break).
Proof.
  intros Hsplit Hc. cbn [CliApp.loop]. unfold CliApp.parse_command.
  rewrite Hsplit. now destruct Hc as [-> | ->].
Qed.

(** X18: the loop ends in one of three ways only: by the [break] of a stop
    word, by the [ValueError] of a blank line, or by the [EOFError] of the
    exhausted input; no exception of a command ever ends it. *)
Theorem loop_endings (inputs : list string) (bot : AssistantBot.t) :
  snd (CliApp.loop inputs bot) = CliApp.Break \/
  snd (CliApp.loop inputs bot) = CliApp.Uncaught (ValueError "") \/
  snd (CliApp.loop inputs bot) = CliApp.Uncaught EOFError.
Proof.
  revert bot; induction inputs as [|line inputs IH]; intros bot;
    cbn [CliApp.loop]; [now right; right|].
  unfold CliApp.parse_command.
  destruct (PyStr.split (PyStr.lower line)) as [|command args];
    [now right; left|].
  destruct (existsb _ _); [now left|].
  destruct (handle_returns command args bot) as [result H].
  destruct (AssistantBot.handle command args bot) as [[r|err] bot'];
    [|discriminate].
  specialize (IH bot'). now destruct (CliApp.loop inputs bot').
Qed.

(** X19: the loop does not tell a line from its lower-case form: lowering
    every input line changes neither what is printed nor how the loop
    ends. *)
Theorem loop_case_insensitive (inputs : list string) (bot : AssistantBot.t) :
  CliApp.loop (map PyStr.lower inputs) bot = CliApp.loop inputs bot.
Proof.
  revert bot; induction inputs as [|line inputs IH]; intros bot;
    cbn [CliApp.loop map]; [reflexivity|].
  rewrite lower_idempotent.
  destruct (CliApp.parse_command (PyStr.lower line)) as [[command args]|err];
    [|reflexivity].
  destruct (existsb _ _); [reflexivity|].
  destruct (AssistantBot.handle command args bot) as [[r|err] bot'];
    [|reflexivity].
  now rewrite IH.
Qed.

(** X20: once the loop has ended on a stop word or on a blank line, the
    lines after it are never read: appending further lines to the input
    changes nothing. *)
Theorem loop_ignores_lines_after_end
    (inputs more : list string) (bot : AssistantBot.t) :
  snd (CliApp.loop inputs bot) <> CliApp.Uncaught EOFError ->
  CliApp.loop (inputs ++ more) bot = CliApp.loop inputs bot.
Proof.
  revert bot; induction inputs as [|line inputs IH]; intros bot;
    cbn [CliApp.loop app]; [easy|].
  destruct (CliApp.parse_command (PyStr.lower line)) as [[command args]|err];
    [|reflexivity].
  destruct (existsb _ _); [reflexivity|].
  destruct (AssistantBot.handle command args bot) as [[r|err] bot'];
    [|reflexivity].
  specialize (IH bot').
  destruct (CliApp.loop inputs bot') as [printed e] eqn:E.
  cbn [snd] in *. intros H. now rewrite (IH H).
Qed.

(** X21: adding a contact and looking it up, through the input loop: when
    one line parses to [add name phone] with a valid phone and a name, other
    than [all], that the store does not hold, and the next line parses to
    [show name], then nothing is printed for the first line, the phone is
    printed for the second, and the loop goes on from the store with the new
    contact appended. *)
Theorem loop_add_then_show
    (line1 line2 name phone : string) (inputs : list string)
    (bot : AssistantBot.t) :
  CliApp.parse_command (PyStr.lower line1) = Ok ("add", [name; phone]) ->
  CliApp.parse_command (PyStr.lower line2) = Ok ("show", [name]) ->
  name <> "all" ->
  PhoneBook.verify_phone phone = Ok tt ->
  Dict.contains name (PhoneBook.phones bot) = false ->
  let bot' := PhoneBook.Build (PhoneBook.phones bot ++ [(name, phone)])%list in
  CliApp.loop (line1 :: line2 :: inputs) bot
  = (phone :: fst (CliApp.loop inputs bot'), snd (CliApp.loop inputs bot')).
Proof.
  intros H1 H2 Hne Hv Habs bot'.
  rewrite (loop_forwards line1 "add" [name; phone]) by (assumption || reflexivity).
  rewrite (handle_dispatch "add" AssistantBot.add) by reflexivity.
  rewrite add_call, Hv, Habs, (setitem_absent _ _ _ Habs).
  fold bot'.
  rewrite (loop_forwards line2 "show" [name]) by (assumption || reflexivity).
  rewrite (handle_dispatch "show" AssistantBot.show) by reflexivity.
  rewrite show_call.
  destruct (String.eqb_spec name "all") as [|_]; [contradiction|].
  assert (Hget : Dict.getitem name (PhoneBook.phones bot') = Ok phone).
  { unfold bot'. cbn [PhoneBook.phones].
    rewrite <- (setitem_absent _ _ _ Habs). apply getitem_setitem_same. }
  rewrite Hget.
  pose proof (verified_not_empty _ Hv) as Hp.
  destruct (CliApp.loop inputs bot') as [printed e].
  destruct phone; [contradiction | reflexivity].
Qed.

(** ** The further properties at concrete inputs *)

Lemma alice_book_ok : store_ok alice_book.
Proof.
  exact (reachable_store_ok _
           (reachable_add "alice" "1234567890" PhoneBook.init reachable_init)).
Qed.

Lemma parse_command_tokens_witness :
  CliApp.parse_command "  add   alice 1234567890 " 
  = Ok ("add", ["alice"; "1234567890"]) /\
  token "add" /\ Forall token ["alice"; "1234567890"] /\ "add" <> "good bye".
Proof.
  split; [reflexivity|].
  apply (parse_command_tokens "  add   alice 1234567890 ").
  reflexivity.
Defined.

Lemma parse_command_join_witness :
  CliApp.parse_command "add alice 1234567890"
  = Ok ("add", ["alice"; "1234567890"]).
Proof.
  apply (parse_command_join "add" ["alice"; "1234567890"]).
  - split; [discriminate | reflexivity].
  - repeat constructor; discriminate.
Defined.

Lemma verify_phone_ignores_suffix_witness :
  PhoneBook.verify_phone "1234567890" = Ok tt /\
  PhoneBook.verify_phone "1234567890abc" = Ok tt /\
  10 <= String.length "1234567890".
Proof.
  split; [reflexivity|].
  apply (verify_phone_ignores_suffix "1234567890" "abc"). reflexivity.
Defined.

Lemma add_or_change_succeeds_witness :
  (Dict.contains "alice" (PhoneBook.phones alice_book) = false /\
   fst (PhoneBook.add_contact "alice" "0000000000" alice_book) = Ok tt /\
   fst (PhoneBook.change_contact "alice" "0000000000" alice_book)
   = Raise (ValueError PhoneBook.unknown_message)) \/
  (Dict.contains "alice" (PhoneBook.phones alice_book) = true /\
   fst (PhoneBook.add_contact "alice" "0000000000" alice_book)
   = Raise (ValueError PhoneBook.duplicate_message) /\
   fst (PhoneBook.change_contact "alice" "0000000000" alice_book) = Ok tt).
Proof.
  apply (add_or_change_succeeds "alice" "0000000000" alice_book).
  reflexivity.
Defined.

Lemma change_then_show_witness :
  PhoneBook.show_phone "bob"
    (PhoneBook.Build [("alice", "1234567890"); ("bob", "0000000000")])
  = (Ok "0000000000",
     PhoneBook.Build [("alice", "1234567890"); ("bob", "0000000000")]) /\
  fst (PhoneBook.show_phone "alice"
         (PhoneBook.Build [("alice", "1234567890"); ("bob", "0000000000")]))
  = fst (PhoneBook.show_phone "alice" alice_bob_book).
Proof.
  assert (Hne : "bob" <> "all") by discriminate.
  assert (Hch : PhoneBook.change_contact "bob" "0000000000" alice_bob_book
                = (Ok tt,
                   PhoneBook.Build
                     [("alice", "1234567890"); ("bob", "0000000000")]))
    by reflexivity.
  destruct (change_then_show "bob" "alice" "0000000000" _ _ Hne Hch)
    as [Hshow Hother].
  split; [exact Hshow|]. apply Hother; discriminate.
Defined.

Lemma add_keeps_other_contacts_witness :
  fst (PhoneBook.show_phone "alice" alice_bob_book)
  = fst (PhoneBook.show_phone "alice" alice_book) /\
  Spec.listing (PhoneBook.phones alice_bob_book)
  = Spec.listing (PhoneBook.phones alice_book)
    ++ Spec.line ("bob", "+123456789012").
Proof.
  apply (add_keeps_other_contacts "bob" "alice" "+123456789012"
           alice_book alice_bob_book).
  - reflexivity.
  - discriminate.
  - discriminate.
Defined.

Lemma handle_add_witness :
  AssistantBot.handle "add" ["bob"; "12345"] alice_book
  = (Ok (VStr "ValueError: Invalid phone format"), alice_book) /\
  AssistantBot.handle "add" ["alice"; "0000000000"] alice_book
  = (Ok (VStr ("ValueError: " ++ PhoneBook.duplicate_message)), alice_book) /\
  AssistantBot.handle "add" ["bob"; "+123456789012"] alice_book
  = (Ok VNone, alice_bob_book).
Proof.
  split; [|split].
  - apply (proj1 (handle_add "bob" "12345" alice_book)).
    vm_compute. discriminate.
  - apply (proj1 (proj2 (handle_add "alice" "0000000000" alice_book)));
      reflexivity.
  - apply (proj2 (proj2 (handle_add "bob" "+123456789012" alice_book)));
      reflexivity.
Defined.

Lemma handle_change_witness :
  AssistantBot.handle "change" ["alice"; "12345"] alice_book
  = (Ok (VStr "ValueError: Invalid phone format"), alice_book) /\
  AssistantBot.handle "change" ["bob"; "0000000000"] alice_book
  = (Ok (VStr ("ValueError: " ++ PhoneBook.unknown_message)), alice_book) /\
  (exists self',
     AssistantBot.handle "change" ["alice"; "0000000000"] alice_bob_book
     = (Ok VNone, self') /\
     Dict.getitem "alice" (PhoneBook.phones self') = Ok "0000000000" /\
     Dict.keys (PhoneBook.phones self') = ["alice"; "bob"]).
Proof.
  split; [|split].
  - apply (proj1 (handle_change "alice" "12345" alice_book)).
    vm_compute. discriminate.
  - apply (proj1 (proj2 (handle_change "bob" "0000000000" alice_book)));
      reflexivity.
  - apply (proj2 (proj2 (handle_change "alice" "0000000000"
                           alice_bob_book)));
      reflexivity.
Defined.

Lemma handle_show_and_phone_witness :
  AssistantBot.handle "phone" ["bob"] alice_bob_book
  = AssistantBot.handle "show" ["bob"] alice_bob_book /\
  AssistantBot.handle "show" ["bob"] alice_bob_book
  = (Ok (VStr "+123456789012"), alice_bob_book).
Proof.
  split.
  - apply (proj1 (handle_show_and_phone ["bob"] "bob" alice_bob_book)).
  - apply (proj2 (proj2 (handle_show_and_phone ["bob"] "bob"
                           alice_bob_book))).
    + discriminate.
    + reflexivity.
Defined.

Lemma handle_changes_store_only_by_add_or_change_witness :
  exists name phone,
    ("add" = "add" \/ "add" = "change") /\
    ["bob"; "+123456789012"] = [name; phone] /\
    PhoneBook.verify_phone phone = Ok tt /\
    AssistantBot.handle "add" ["bob"; "+123456789012"] alice_book
    = (Ok VNone,
       PhoneBook.Build
         (Dict.setitem name phone (PhoneBook.phones alice_book))).
Proof.
  apply (handle_changes_store_only_by_add_or_change
           "add" ["bob"; "+123456789012"] alice_book).
  vm_compute. discriminate.
Defined.

Lemma handle_preserves_store_ok_witness :
  store_ok alice_book /\
  store_ok (snd (AssistantBot.handle "add" ["bob"; "+123456789012"]
                   alice_book)).
Proof.
  split; [exact alice_book_ok|].
  apply (handle_preserves_store_ok "add" ["bob"; "+123456789012"]
           alice_book).
  exact alice_book_ok.
Defined.

Lemma handle_silent_only_on_success_witness :
  VNone = VNone /\
  exists name phone,
    ("change" = "add" \/ "change" = "change") /\
    ["alice"; "0000000000"] = [name; phone] /\
    PhoneBook.verify_phone phone = Ok tt.
Proof.
  apply (handle_silent_only_on_success
           "change" ["alice"; "0000000000"] alice_book VNone).
  - exact alice_book_ok.
  - reflexivity.
  - reflexivity.
Defined.

Lemma handle_keeps_contacts_witness :
  Dict.contains "alice"
    (PhoneBook.phones
       (snd (AssistantBot.handle "change" ["alice"; "0000000000"]
               alice_book))) = true.
Proof.
  apply (handle_keeps_contacts "change" "alice" ["alice"; "0000000000"]
           alice_book).
  reflexivity.
Defined.

Lemma loop_blank_line_witness :
  CliApp.loop ["   "; "hello"] alice_book
  = ([], CliApp.Uncaught (ValueError "")).
Proof.
  apply (loop_blank_line "   " ["hello"] alice_book). reflexivity.
Defined.

Lemma loop_stops_on_first_token_witness :
  CliApp.loop ["  Close  now"; "hello"] alice_book
  = (["Good bye!"], CliApp.Break).
Proof.
  apply (loop_stops_on_first_token "  Close  now" "close" ["now"]).
  - reflexivity.
  - left. reflexivity.
Defined.

Lemma loop_ignores_lines_after_end_witness :
  CliApp.loop (["hello"; "exit"] ++ ["show all"]) alice_book
  = CliApp.loop ["hello"; "exit"] alice_book.
Proof.
  apply (loop_ignores_lines_after_end ["hello"; "exit"] ["show all"]
           alice_book).
  vm_compute. discriminate.
Defined.

Lemma loop_add_then_show_witness :
  CliApp.loop ["ADD Bob +123456789012"; "Show BOB"; "exit"] alice_book
  = (["+123456789012"; "Good bye!"], CliApp.Break).
Proof.
  apply (loop_add_then_show "ADD Bob +123456789012" "Show BOB"
           "bob" "+123456789012" ["exit"] alice_book).
  - reflexivity.
  - reflexivity.
  - discriminate.
  - reflexivity.
  - reflexivity.
Defined.
